(** * WebMining: the book and product scrapers

    A shallow embedding of the three scripts of [Assignment 1]
    ([book_scraper.py], [book_scraper2.py], [durex_scraper.py]) and the
    properties of their field normalisation, record extraction and
    pagination.

    Layout: Python's string built-ins ([Py]), the part of BeautifulSoup's
    tree and queries the scripts use ([Bs4]), the effects of a scrape
    ([Eff]), then one module per script; the lemmas and theorems follow
    the definitions. *)

From Stdlib Require Import ZArith NArith QArith Qreduction Qpower List String Ascii Bool Lia.
From Stdlib Require Import DecimalString DecimalPos DecimalZ.
From stdpp Require Import base option list gmap.

Open Scope Z_scope.

(** A Python [str] is a sequence of Unicode code points. *)
Abbreviation str := (list N).

(** The [str] of an ASCII literal of the source. *)
Definition lit (s : string) : str := List.map N_of_ascii (list_ascii_of_string s).

(* ===================================================================== *)
(** * Python built-ins *)
(* ===================================================================== *)

Module Py.

(** Exceptions the scripts can meet. [RequestException] carries the
    subclass raised by [requests]. *)
Inductive request_error :=
| Timeout
| ConnectionError
| HTTPError (status : Z).

Inductive exn :=
| AttributeError
| ValueError
| RequestException (e : request_error).

Inductive result (A : Type) :=
| Return (a : A)
| Raise (e : exn).
Arguments Return {A} a.
Arguments Raise {A} e.

(** The results of [f] over [xs] in order, or the first exception. *)
Fixpoint traverse {A B : Type} (f : A -> result B) (xs : list A) : result (list B) :=
  match xs with
  | [] => Return []
  | x :: xs' =>
      match f x with
      | Raise e => Raise e
      | Return b =>
          match traverse f xs' with
          | Raise e => Raise e
          | Return bs => Return (b :: bs)
          end
      end
  end.

(** [s.startswith(p)] *)
Fixpoint startswith (p s : str) : bool :=
  match p, s with
  | [], _ => true
  | _ :: _, [] => false
  | a :: p', b :: s' => (a =? b)%N && startswith p' s'
  end.

(** [sub in s] *)
Fixpoint contains (sub s : str) : bool :=
  startswith sub s ||
  match s with
  | [] => false
  | _ :: s' => contains sub s'
  end.

(** [s.lstrip(chars)] and [s.rstrip(chars)], the characters to drop given
    as a predicate. *)
Fixpoint lstrip_by (drop : N -> bool) (s : str) : str :=
  match s with
  | [] => []
  | c :: s' => if drop c then lstrip_by drop s' else s
  end.

Definition rstrip_by (drop : N -> bool) (s : str) : str :=
  List.rev (lstrip_by drop (List.rev s)).

Definition elem (cs : str) (c : N) : bool := existsb (N.eqb c) cs.

Definition lstrip (chars s : str) : str := lstrip_by (elem chars) s.
Definition rstrip (chars s : str) : str := rstrip_by (elem chars) s.

(** [str.isspace] on one code point (Unicode 14, as [unicodedata] has it):
    the ASCII controls 9-13 and 28-31, the space, and the Unicode
    separators. *)
Definition isspace (c : N) : bool :=
  ((9 <=? c) && (c <=? 13) || (28 <=? c) && (c <=? 32) ||
   (c =? 133) || (c =? 160) || (c =? 5760) ||
   (8192 <=? c) && (c <=? 8202) ||
   (c =? 8232) || (c =? 8233) || (c =? 8239) || (c =? 8287) || (c =? 12288))%N.

(** [s.strip()] *)
Definition strip (s : str) : str := rstrip_by isspace (lstrip_by isspace s).

(** [s.replace(old, new)]: the occurrences of [old] are found left to
    right and do not overlap. [skip] counts the characters of a match
    still to pass over. *)
Fixpoint replace_from (old new s : str) (skip : nat) : str :=
  match s with
  | [] => []
  | c :: s' =>
      match skip with
      | S k => replace_from old new s' k
      | O =>
          if startswith old s
          then new ++ replace_from old new s' (Nat.pred (List.length old))
          else c :: replace_from old new s' O
      end
  end.

Definition replace (old new s : str) : str :=
  match old with
  | [] => new ++ flat_map (fun c => c :: new) s
  | _ :: _ => replace_from old new s O
  end.

(** [s.lower()]. Python follows the Unicode database; the model folds
    the ASCII and Latin-1 capitals and the two capitals outside ASCII
    whose lower case holds an ASCII letter (U+0130, U+212A). Other code
    points are kept: none of them lowers to a string with an ASCII
    letter, so no occurrence of an ASCII keyword is gained or lost. *)
Definition lower_char (c : N) : str :=
  (if (65 <=? c) && (c <=? 90) then [c + 32]
   else if (192 <=? c) && (c <=? 222) && negb (c =? 215) then [c + 32]
   else if c =? 304 then [105; 775]
   else if c =? 8490 then [107]
   else [c])%N.

Definition lower (s : str) : str := flat_map lower_char s.

(** [s[:n]] for [n >= 0] *)
Definition slice_to (n : nat) (s : str) : str := firstn n s.

(** [str(n)] and the [{n}] of an f-string, for an [int]. *)
Definition str_of_int (n : Z) : str := lit (NilZero.string_of_int (Z.to_int n)).

(** ** [float(s)]

    The value of a Python float: a finite binary64, given by the
    rational it is, in lowest terms, an infinity or a NaN. The sign of a
    zero is outside the model. *)
Inductive pyfloat :=
| F_num (q : Q)
| F_inf (neg : bool)
| F_nan.

(** [Py_UNICODE_TODECIMAL]: the first digit of each run of ten decimal
    digits (category Nd, Unicode 14). *)
Definition nd_zeros : list N :=
  [48; 1632; 1776; 1984; 2406; 2534; 2662; 2790; 2918; 3046; 3174; 3302;
   3430; 3558; 3664; 3792; 3872; 4160; 4240; 6112; 6160; 6470; 6608; 6784;
   6800; 6992; 7088; 7232; 7248; 42528; 43216; 43264; 43472; 43504; 43600;
   44016; 65296; 66720; 68912; 69734; 69872; 69942; 70096; 70384; 70736;
   70864; 71248; 71360; 71472; 71904; 72016; 72784; 73040; 73120; 92768;
   92864; 93008; 120782; 120792; 120802; 120812; 120822; 123200; 123632;
   125264; 130032]%N.

Definition to_decimal (c : N) : option N :=
  match List.find (fun z => (z <=? c) && (c <? z + 10))%N nd_zeros with
  | Some z => Some (c - z)%N
  | None => None
  end.

(** [_PyUnicode_TransformDecimalAndSpaceToASCII]: an ASCII string is
    kept; otherwise spaces become [' '], decimal digits their ASCII
    digit, and the copy ends with ['?'] at the first other code point
    from 127 on. *)
Fixpoint transform_loop (s : str) : str :=
  match s with
  | [] => []
  | c :: s' =>
      if (c <? 127)%N then c :: transform_loop s'
      else if isspace c then 32%N :: transform_loop s'
      else match to_decimal c with
           | Some d => (48 + d)%N :: transform_loop s'
           | None => [63%N]
           end
  end.

Definition transform_decimal_and_space (s : str) : str :=
  if forallb (fun c => c <? 128)%N s then s else transform_loop s.

Definition is_digit (c : N) : bool := ((48 <=? c) && (c <=? 57))%N.

(** [_Py_string_to_number_with_underscores]: an underscore must stand
    between two digits; [prev] is the character before (0 at the
    start). *)
Fixpoint drop_underscores (prev : N) (s : str) : option str :=
  match s with
  | [] => if (prev =? 95)%N then None else Some []
  | c :: s' =>
      if (c =? 95)%N then
        if is_digit prev then drop_underscores c s' else None
      else if (prev =? 95)%N && negb (is_digit c) then None
      else option_map (cons c) (drop_underscores c s')
  end.

(** [Py_ISSPACE]: the C locale's white space. *)
Definition c_isspace (c : N) : bool := ((9 <=? c) && (c <=? 13) || (c =? 32))%N.

Definition read_sign (s : str) : bool * str :=
  match s with
  | c :: s' =>
      if (c =? 45)%N then (true, s')
      else if (c =? 43)%N then (false, s')
      else (false, s)
  | [] => (false, s)
  end.

(** The longest run of ASCII digits at the head of [s], as digit values,
    and what follows it. *)
Fixpoint read_digits (s : str) : list N * str :=
  match s with
  | [] => ([], [])
  | c :: s' =>
      if is_digit c
      then let '(ds, r) := read_digits s' in ((c - 48)%N :: ds, r)
      else ([], s)
  end.

(** The point and the digits after it, if a point comes next. *)
Definition read_fraction (s : str) : list N * str :=
  match s with
  | c :: s' => if (c =? 46)%N then read_digits s' else ([], s)
  | [] => ([], s)
  end.

Definition digits_value (ds : list N) : N :=
  fold_left (fun a d => 10 * a + d)%N ds 0%N.

(** The number [(-1)^neg * m * 10^e], in lowest terms. *)
Definition decimal (neg : bool) (m : N) (e : Z) : Q :=
  let q := Qred (inject_Z (Z.of_N m) * Qpower (10 # 1) e) in
  if neg then Qred (Qopp q) else q.

(** The exponent part after the mantissa: [e] or [E], a sign, at least
    one digit; when no digit follows, the exponent is not read. *)
Definition read_exponent (s : str) : Z * str :=
  match s with
  | c :: s' =>
      if ((c =? 101) || (c =? 69))%N then
        let '(eneg, r) := read_sign s' in
        match read_digits r with
        | ([], _) => (0, s)
        | (ds, r') =>
            let e := Z.of_N (digits_value ds) in
            (if eneg then - e else e, r')
        end
      else (0, s)
  | [] => (0, s)
  end.

(** The integer nearest to [q], the even one of two that are as near. *)
Definition round_half_even (q : Q) : Z :=
  let n := Qnum q in
  let d := Z.pos (Qden q) in
  let f := n / d in
  match 2 * (n mod d) ?= d with
  | Lt => f
  | Gt => f + 1
  | Eq => if Z.even f then f else f + 1
  end.

(** The [e] with [2^e <= q < 2^(e+1)], for a positive [q]. *)
Definition floor_log2 (q : Q) : Z :=
  let e := Z.log2 (Qnum q) - Z.log2 (Z.pos (Qden q)) in
  if Qle_bool (Qpower (2 # 1) e) q then e else e - 1.

(** The binary64 nearest to [q], ties to the even mantissa, as
    [_Py_dg_strtod] rounds: a mantissa of 53 bits, a unit in the last
    place from [2^-1074] on (the subnormals included), and the infinity
    when the rounded value reaches [2^1024]. *)
Definition binary64 (q : Q) : pyfloat :=
  let neg := negb (Qle_bool 0 q) in
  let a := if neg then Qopp q else q in
  if Qeq_bool a 0 then F_num 0
  else
    let e := Z.max (floor_log2 a - 52) (-1074) in
    let m := round_half_even (a / Qpower (2 # 1) e) in
    let v := (inject_Z m * Qpower (2 # 1) e)%Q in
    if Qle_bool (Qpower (2 # 1) 1024) v then F_inf neg
    else F_num (Qred (if neg then Qopp v else v)).

(** [_Py_dg_strtod]: sign, digits, a point and digits, an exponent; at
    least one digit in the mantissa. Returns the value, rounded to
    binary64, and the text not read, or [None] when nothing is read. *)
Definition strtod (s : str) : option (pyfloat * str) :=
  let '(neg, s1) := read_sign s in
  let '(ip, r1) := read_digits s1 in
  let '(fp, r2) := read_fraction r1 in
  match ip ++ fp with
  | [] => None
  | ds =>
      let '(e, r3) := read_exponent r2 in
      Some (binary64 (decimal neg (digits_value ds) (e - Z.of_nat (List.length fp))), r3)
  end.

Definition tolower (c : N) : N :=
  (if (65 <=? c) && (c <=? 90) then c + 32 else c)%N.

(** [case_insensitive_match]: what follows the match, if [t] matches. *)
Fixpoint case_insensitive_match (t s : str) : option str :=
  match t, s with
  | [], _ => Some s
  | _ :: _, [] => None
  | a :: t', b :: s' =>
      if (tolower b =? a)%N then case_insensitive_match t' s' else None
  end.

(** [_Py_parse_inf_or_nan] *)
Definition parse_inf_or_nan (s : str) : option (pyfloat * str) :=
  let '(neg, s1) := read_sign s in
  match case_insensitive_match (lit "inf") s1 with
  | Some r =>
      match case_insensitive_match (lit "inity") r with
      | Some r' => Some (F_inf neg, r')
      | None => Some (F_inf neg, r)
      end
  | None =>
      match case_insensitive_match (lit "nan") s1 with
      | Some r => Some (F_nan, r)
      | None => None
      end
  end.

(** [float_from_string_inner]: the C white space is dropped at both
    ends and the whole of the rest has to be read. *)
Definition float_from_string_inner (s : str) : result pyfloat :=
  match rstrip_by c_isspace (lstrip_by c_isspace s) with
  | [] => Raise ValueError
  | t =>
      let parsed :=
        match strtod t with
        | Some r => Some r
        | None => parse_inf_or_nan t
        end in
      match parsed with
      | Some (x, []) => Return x
      | _ => Raise ValueError
      end
  end.

(** [float(s)] for a [str] *)
Definition float (s : str) : result pyfloat :=
  let t := transform_decimal_and_space s in
  if elem t 95%N then
    match drop_underscores 0%N t with
    | Some t' => float_from_string_inner t'
    | None => Raise ValueError
    end
  else float_from_string_inner t.

End Py.

Import Py.


Definition pound : str := [163%N].
Definition a_circumflex : str := [194%N].

(** The sentinel of an absent field. *)
Definition NA : str := lit "N/A".

(* ===================================================================== *)
(** * BeautifulSoup: the tree and the queries the scripts use *)
(* ===================================================================== *)

Module Bs4.

(** A parsed document: tags, and the strings between them. [classes] is
    the value of the multi-valued [class] attribute ([None] when the tag
    has none); [attrs] holds the other, single-valued attributes. The
    document itself is a tag whose children are the top-level nodes.

    The strings of the tree are those of the class [NavigableString]
    itself, the ones [get_text] of an enclosing tag counts. Comments,
    declarations and the strings inside [script], [style] and
    [template] elements, which [get_text] of an enclosing tag leaves out
    and which no [find] or [find_all] of the scripts matches, are not
    nodes of the tree: a page is modelled by its tree without them. *)
#[warnings="-register-all"]
Inductive node :=
| Tag (name : str) (classes : option (list str)) (attrs : gmap str str)
      (children : list node)
| NavigableString (text : str).

(** [tag.descendants]: document order, the tag itself left out. *)
Fixpoint descendants (n : node) : list node :=
  match n with
  | Tag _ _ _ cs => flat_map (fun c => c :: descendants c) cs
  | NavigableString _ => []
  end.

(** The first argument of [find] and [find_all]. *)
Inductive name_filter :=
| AnyTag
| TagNamed (n : str)
| TagIn (ns : list str).

(** The keyword arguments of [find] and [find_all]. *)
Inductive attr_filter :=
| ClassIs (c : str)
| ClassSat (f : option str -> bool)
| AttrPresent (key : str)
| AttrIs (key value : str).

Definition str_eqb (a b : str) : bool := bool_decide (a = b).

(** [' '.join(l)] *)
Fixpoint join_space (l : list str) : str :=
  match l with
  | [] => []
  | [a] => a
  | a :: l' => a ++ 32%N :: join_space l'
  end.

Definition matches_name (f : name_filter) (name : str) : bool :=
  match f with
  | AnyTag => true
  | TagNamed n => str_eqb name n
  | TagIn ns => existsb (str_eqb name) ns
  end.

(** [SoupStrainer._matches] on an attribute: a multi-valued attribute
    matches when one of its values does, or the values joined by spaces;
    a callable is called with [None] when the attribute is absent. *)
Definition matches_attr (f : attr_filter) (classes : option (list str))
    (attrs : gmap str str) : bool :=
  match f with
  | ClassIs c =>
      match classes with
      | None => false
      | Some l => existsb (fun t => str_eqb t c) l || str_eqb (join_space l) c
      end
  | ClassSat g =>
      match classes with
      | None => g None
      | Some l => existsb (fun t => g (Some t)) l || g (Some (join_space l))
      end
  | AttrPresent key => bool_decide (is_Some (attrs !! key))
  | AttrIs key value =>
      match attrs !! key with
      | Some v => str_eqb v value
      | None => false
      end
  end.

Definition search_tag (nf : name_filter) (afs : list attr_filter) (n : node) : bool :=
  match n with
  | Tag name classes attrs _ =>
      matches_name nf name && forallb (fun f => matches_attr f classes attrs) afs
  | NavigableString _ => false
  end.

(** [tag.find_all(name, **attrs)] *)
Definition find_all (nf : name_filter) (afs : list attr_filter) (n : node) : list node :=
  List.filter (search_tag nf afs) (descendants n).

(** [tag.find_all(name, **attrs, limit=k)] for [k > 0] *)
Definition find_all_limit (nf : name_filter) (afs : list attr_filter) (k : nat)
    (n : node) : list node :=
  firstn k (find_all nf afs n).

(** [tag.find(name, **attrs)]: the first match or [None]. *)
Definition find (nf : name_filter) (afs : list attr_filter) (n : node) : option node :=
  head (find_all nf afs n).

(** [tag.get_text(strip=...)]: the strings below the tag, concatenated;
    with [strip] each is stripped and the empty ones are left out. *)
Definition all_strings (strip : bool) (n : node) : list str :=
  flat_map
    (fun d =>
       match d with
       | NavigableString t =>
           if strip then
             match Py.strip t with
             | [] => []
             | t' => [t']
             end
           else [t]
       | Tag _ _ _ _ => []
       end)
    (descendants n).

Definition get_text (strip : bool) (n : node) : str := List.concat (all_strings strip n).

(** [tag.text] *)
Definition text (n : node) : str := get_text false n.

(** [tag.get(key, default)] for a single-valued attribute, and
    [tag.get('class', default)]. *)
Definition get (key default : str) (n : node) : str :=
  match n with
  | Tag _ _ attrs _ => from_option id default (attrs !! key)
  | NavigableString _ => default
  end.

Definition get_class (default : list str) (n : node) : list str :=
  match n with
  | Tag _ classes _ _ => from_option id default classes
  | NavigableString _ => default
  end.

(** A method called on what [find] returned: on [None] the attribute
    lookup raises [AttributeError]. *)
Definition on_found {A : Type} (o : option node) (method : node -> A) : result A :=
  match o with
  | Some n => Return (method n)
  | None => Raise AttributeError
  end.

End Bs4.

Import Bs4.

(* ===================================================================== *)
(** * The effects of a scrape *)
(* ===================================================================== *)

Module Eff.

(** What the scripts print, one constructor per message. *)
Inductive message :=
| Scraping_page (page : Z)
| No_books_found (page : Z)
| Found_books (n : nat) (page : Z)
| Error_scraping (page : Z) (e : request_error)
| Fetching_main_page
| Error_fetching (url : str) (e : request_error)
| Failed_to_fetch_main_page
| Found_potential_products (n : nat)
| Product_line (title : str)
| Analyzing_page_structure.

(** What a run does to the outside world, in order. *)
Inductive event :=
| Get (url : str)
| Print (m : message)
| Sleep.

(** The remote site: what a GET of a URL yields once the status is
    checked and the body parsed, or the exception [requests] raises. *)
Definition web := str -> request_error + node.

(** A computation over local variables [S]: it returns or raises,
    leaves the variables as they are at that point, and emits events. *)
Definition M (S A : Type) : Type := S -> result A * S * list event.

Definition ret {S A} (a : A) : M S A := fun s => (Return a, s, []).

Definition raise {S A} (e : exn) : M S A := fun s => (Raise e, s, []).

Definition bind {S A B} (m : M S A) (k : A -> M S B) : M S B :=
  fun s =>
    match m s with
    | (Return a, s1, t1) =>
        let '(r, s2, t2) := k a s1 in (r, s2, t1 ++ t2)
    | (Raise e, s1, t1) => (Raise e, s1, t1)
    end.

Definition lift {S A} (r : result A) : M S A := fun s => (r, s, []).

Definition emit {S} (e : event) : M S unit := fun s => (Return tt, s, [e]).

Definition print {S} (m : message) : M S unit := emit (Print m).

Definition read {S} : M S S := fun s => (Return s, s, []).

Definition modify {S} (f : S -> S) : M S unit := fun s => (Return tt, f s, []).

(** [requests.get(url)], [raise_for_status()] and the parse. *)
Definition requests_get {S} (w : web) (url : str) : M S node :=
  bind (emit (Get url))
       (fun _ => match w url with
                 | inr soup => ret soup
                 | inl e => raise (RequestException e)
                 end).

(** [try: m except requests.exceptions.RequestException as e: handler e] *)
Definition try_except {S A} (m : M S A) (handler : request_error -> M S A) : M S A :=
  fun s =>
    match m s with
    | (Raise (RequestException e), s1, t1) =>
        let '(r, s2, t2) := handler e s1 in (r, s2, t1 ++ t2)
    | other => other
    end.

(** How an iteration of a [for] loop ends. *)
Inductive control := Continue | Break.

(** [for x in xs: body x] *)
Fixpoint for_each {S X} (xs : list X) (body : X -> M S control) : M S unit :=
  match xs with
  | [] => ret tt
  | x :: xs' =>
      bind (body x)
           (fun c => match c with
                     | Break => ret tt
                     | Continue => for_each xs' body
                     end)
  end.

(** [range(a, b)] *)
Definition range (a b : Z) : list Z := seqZ a (b - a).

(** [enumerate(xs, start)] *)
Fixpoint enumerate {X} (start : Z) (xs : list X) : list (Z * X) :=
  match xs with
  | [] => []
  | x :: xs' => (start, x) :: enumerate (start + 1) xs'
  end.

(** The GETs of a trace. *)
Definition gets (t : list event) : list str :=
  flat_map (fun e => match e with Get u => [u] | _ => [] end) t.

End Eff.

Import Eff.

Notation "x <- c1 ;; c2" := (bind c1 (fun x => c2))
  (at level 100, c1 at next level, right associativity).
Notation "c1 ;; c2" := (bind c1 (fun _ => c2))
  (at level 100, right associativity).

(* ===================================================================== *)
(** * book_scraper.py *)
(* ===================================================================== *)

Module BookScraper.

(** One row of [books]: the dict with keys title, price and rating. *)
Record book_row := { title : str; price : pyfloat; rating : Z }.

(** Rating conversion mapping *)
Definition rating_map : gmap str Z :=
  <[lit "One" := 1]> (<[lit "Two" := 2]> (<[lit "Three" := 3]>
  (<[lit "Four" := 4]> (<[lit "Five" := 5]> ∅)))).

(** [rating_map.get(key, default)], the key a [str] or [None]. *)
Definition rating_map_get (key : option str) (default : Z) : Z :=
  match key with
  | Some k => from_option id default (rating_map !! k)
  | None => default
  end.

(** [float(price_text.replace('£', ''))] after [price_element.text.strip()] *)
Definition price_of_text (text : str) : result pyfloat :=
  let price_text := strip text in
  float (replace pound [] price_text).

(** Lines 58-59: the title; [find] on a missing [h3] or [a] raises. *)
Definition title_of (book : node) : result str :=
  match on_found (find (TagNamed (lit "h3")) [] book) (find (TagNamed (lit "a")) []) with
  | Raise e => Raise e
  | Return title_element => on_found title_element (get (lit "title") NA)
  end.

(** Lines 62-68: the price. *)
Definition price_of (book : node) : result pyfloat :=
  let price_element := find (TagNamed (lit "p")) [ClassIs (lit "price_color")] book in
  match price_element with
  | Some el => price_of_text (text el)
  | None => Return (F_num 0)
  end.

(** Lines 74-76: the second class of the rating element is the rating. *)
Definition rating_of_class (rating_class : list str) : Z :=
  let rating_text :=
    if (1 <? List.length rating_class)%nat then nth_error rating_class 1 else None in
  rating_map_get rating_text 0.

(** Lines 71-78: the rating. *)
Definition rating_of (book : node) : Z :=
  let rating_element := find (TagNamed (lit "p")) [ClassIs (lit "star-rating")] book in
  match rating_element with
  | Some el => rating_of_class (get_class [] el)
  | None => 0
  end.

(** The body of [for book in book_containers], up to the append. *)
Definition extract_book (book : node) : result book_row :=
  match title_of book with
  | Raise e => Raise e
  | Return title =>
      match price_of book with
      | Raise e => Raise e
      | Return price =>
          Return {| title := title; price := price; rating := rating_of book |}
      end
  end.

Definition page_url (url : str) (page : Z) : str :=
  if 1 <? page
  then url ++ lit "/catalogue/page-" ++ str_of_int page ++ lit ".html"
  else url.

Definition book_containers_of (soup : node) : list node :=
  find_all (TagNamed (lit "article")) [ClassIs (lit "product_pod")] soup.

(** The body of [for page in range(1, max_pages + 1)]; the local
    variable is [books]. *)
Definition scrape_page (w : web) (url : str) (page : Z) : M (list book_row) control :=
  print (Scraping_page page) ;;
  try_except
    (soup <- requests_get w (page_url url page) ;;
     let book_containers := book_containers_of soup in
     match book_containers with
     | [] => print (No_books_found page) ;; ret Break
     | _ :: _ =>
         for_each book_containers
           (fun book =>
              b <- lift (extract_book book) ;;
              modify (fun books => books ++ [b]) ;;
              ret Continue) ;;
         print (Found_books (List.length book_containers) page) ;;
         ret Continue
     end)
    (fun e => print (Error_scraping page e) ;; ret Break).

Definition scrape_books_from (w : web) (url : str) (max_pages : Z) : M (list book_row) (list book_row) :=
  for_each (range 1 (max_pages + 1)) (scrape_page w url) ;;
  read.

(** [scrape_books(url, max_pages)]: what it returns or raises, and the
    events of the run; [books] starts empty. *)
Definition scrape_books (w : web) (url : str) (max_pages : Z) : result (list book_row) * list event :=
  let '(r, _, t) := scrape_books_from w url max_pages [] in (r, t).

End BookScraper.

(* ===================================================================== *)
(** * book_scraper2.py *)
(* ===================================================================== *)

Module BookScraper2.

(** The rows have the keys of [book_scraper.py]'s. *)
Abbreviation book_row := BookScraper.book_row.

(** Map star rating words to numeric values *)
Definition rating_map : gmap str Z :=
  <[lit "One" := 1]> (<[lit "Two" := 2]> (<[lit "Three" := 3]>
  (<[lit "Four" := 4]> (<[lit "Five" := 5]> ∅)))).

Definition rating_map_get (key : option str) (default : Z) : Z :=
  match key with
  | Some k => from_option id default (rating_map !! k)
  | None => default
  end.

(** [price_text.replace("Â", "").replace("£", "").strip()] *)
Definition cleaned_price_of (price_text : str) : str :=
  strip (replace pound [] (replace a_circumflex [] price_text)).

(** Lines 49-50: the title; [find] on a missing [h3] or [a] raises. *)
Definition title_of (book : node) : result str :=
  match on_found (find (TagNamed (lit "h3")) [] book) (find (TagNamed (lit "a")) []) with
  | Raise e => Raise e
  | Return title_tag => on_found title_tag (fun t => strip (get (lit "title") NA t))
  end.

(** Lines 53-56: the text handed to [float]. *)
Definition cleaned_price (book : node) : str :=
  let price_tag := find (TagNamed (lit "p")) [ClassIs (lit "price_color")] book in
  let price_text :=
    match price_tag with
    | Some t => get_text true t
    | None => pound ++ lit "0.00"
    end in
  cleaned_price_of price_text.

(** Lines 61-63: the second class of the rating tag is the rating. *)
Definition rating_of_classes (rating_classes : list str) : Z :=
  let rating_word :=
    if (1 <? List.length rating_classes)%nat then nth_error rating_classes 1 else None in
  rating_map_get rating_word 0.

(** Lines 60-63: the rating. *)
Definition rating_of (book : node) : Z :=
  let rating_tag := find (TagNamed (lit "p")) [ClassIs (lit "star-rating")] book in
  let rating_classes :=
    match rating_tag with
    | Some t => get_class [] t
    | None => []
    end in
  rating_of_classes rating_classes.

(** The body of [for book in book_containers], up to the append. *)
Definition extract_book (book : node) : result book_row :=
  match title_of book with
  | Raise e => Raise e
  | Return title =>
      match float (cleaned_price book) with
      | Raise e => Raise e
      | Return price =>
          Return {| BookScraper.title := title; BookScraper.price := price;
                    BookScraper.rating := rating_of book |}
      end
  end.

Definition scrape_books_from (w : web) (url : str) : M (list book_row) (list book_row) :=
  soup <- requests_get w url ;;
  let book_containers :=
    find_all (TagNamed (lit "article")) [ClassIs (lit "product_pod")] soup in
  for_each book_containers
    (fun book =>
       b <- lift (extract_book book) ;;
       modify (fun books => books ++ [b]) ;;
       ret Continue) ;;
  read.

(** [scrape_books(url)]: the rows of the DataFrame it returns, or what
    it raises, and the events of the run. *)
Definition scrape_books (w : web) (url : str) : result (list book_row) * list event :=
  let '(r, _, t) := scrape_books_from w url [] in (r, t).

End BookScraper2.

(* ===================================================================== *)
(** * durex_scraper.py *)
(* ===================================================================== *)

Module DurexScraper.

Record product := { title : str; description : str; category : str; link : str }.

(** [get_page_content(url)]: the soup, or [None] when the fetch failed. *)
Definition get_page_content {S} (w : web) (url : str) : M S (option node) :=
  try_except
    (soup <- requests_get w url ;; ret (Some soup))
    (fun e => print (Error_fetching url e) ;; ret None).

(** [lambda x: x and any(keyword in str(x).lower() for keyword in keywords)] *)
Definition has_keyword (keywords : list str) (x : option str) : bool :=
  match x with
  | None => false
  | Some [] => false
  | Some s => existsb (fun keyword => contains keyword (lower s)) keywords
  end.

Definition headings : name_filter := TagIn [lit "h1"; lit "h2"; lit "h3"; lit "h4"].

(** Lines 81-82: a link other than the sentinel that does not start
    with [http] is joined to the base URL. *)
Definition resolve_link (link base_url : str) : str :=
  if negb (str_eqb link NA) && negb (startswith (lit "http") link)
  then rstrip (lit "/") base_url ++ lit "/" ++ lstrip (lit "/") link
  else link.

(** The fields read from one element, before the test on line 88. *)
Definition extract_product (base_url : str) (element : node) : product :=
  let title_elem :=
    match find headings [ClassSat (has_keyword [lit "title"; lit "name"; lit "product"])] element with
    | Some t => Some t
    | None => find headings [] element
    end in
  let title :=
    match title_elem with
    | Some t => get_text true t
    | None => NA
    end in
  let desc_elem :=
    find (TagIn [lit "p"; lit "div"])
         [ClassSat (has_keyword [lit "description"; lit "desc"; lit "summary"])] element in
  let description :=
    match desc_elem with
    | Some t => get_text true t
    | None => NA
    end in
  let link_elem := find (TagNamed (lit "a")) [AttrPresent (lit "href")] element in
  let link :=
    match link_elem with
    | Some t => get (lit "href") [] t
    | None => NA
    end in
  let link := resolve_link link base_url in
  let category_elem := find AnyTag [ClassSat (has_keyword [lit "category"])] element in
  let category :=
    match category_elem with
    | Some t => get_text true t
    | None => NA
    end in
  {| title := title; description := description; category := category; link := link |}.

(** Line 88 *)
Definition emitted (p : product) : bool :=
  negb (str_eqb (title p) NA) || negb (str_eqb (description p) NA).

(** The dict appended on lines 89-94. *)
Definition row_of (p : product) : product :=
  {| title := title p;
     description :=
       if negb (str_eqb (description p) NA) then slice_to 200 (description p) else NA;
     category := category p;
     link := link p |}.

(** The body of [for idx, element in enumerate(product_elements, 1)]. *)
Definition scrape_element (base_url : str) (ie : Z * node) : M (list product) control :=
  let '(idx, element) := ie in
  let p := extract_product base_url element in
  (if emitted p then
     modify (fun products => products ++ [row_of p]) ;;
     (if idx <=? 5 then print (Product_line (title p)) else ret tt)
   else ret tt) ;;
  (if idx mod 10 =? 0 then emit Sleep else ret tt) ;;
  ret Continue.

Definition product_elements_of (soup : node) : list node :=
  find_all (TagIn [lit "article"; lit "div"])
           [ClassSat (has_keyword [lit "product"; lit "item"; lit "card"])] soup.

Definition scrape_products_from (w : web) (base_url : str) : M (list product) (list product) :=
  print Fetching_main_page ;;
  soup <- get_page_content w base_url ;;
  match soup with
  | None => print Failed_to_fetch_main_page ;; read
  | Some soup =>
      let product_elements := product_elements_of soup in
      print (Found_potential_products (List.length product_elements)) ;;
      for_each (enumerate 1 product_elements) (scrape_element base_url) ;;
      read
  end.

(** [scrape_products(base_url)]: what it returns or raises, and the
    events of the run; [products] starts empty. *)
Definition scrape_products (w : web) (base_url : str) : result (list product) * list event :=
  let '(r, _, t) := scrape_products_from w base_url [] in (r, t).

(** One entry of [content['links']]. *)
Record nav_link := { text : str; url : str }.

(** The body of the loop over the navigation links, lines 153-158:
    the entry appended for an anchor, if any. *)
Definition nav_link_of (page_url : str) (a : node) : option nav_link :=
  let href := get (lit "href") [] a in
  let text := get_text true a in
  match text, href with
  | _ :: _, _ :: _ =>
      if negb (startswith (lit "#") href) then
        let href :=
          if negb (startswith (lit "http") href)
          then rstrip (lit "/") page_url ++ lit "/" ++ lstrip (lit "/") href
          else href in
        Some {| text := text; url := href |}
      else None
  | _, _ => None
  end.

Record content := {
  page_title : str;
  page_headings : list str;
  main_text : list str;
  links : list nav_link;
  meta_description : str
}.

(** The dict built from the soup on lines 122-160. *)
Definition content_of (page_url : str) (soup : node) : content :=
  {| page_title :=
       match find (TagNamed (lit "title")) [] soup with
       | Some t => get_text true t
       | None => []
       end;
     meta_description :=
       match find (TagNamed (lit "meta")) [AttrIs (lit "name") (lit "description")] soup with
       | Some m => get (lit "content") [] m
       | None => []
       end;
     page_headings :=
       List.filter (fun t => (3 <? List.length t)%nat)
         (List.map (get_text true)
            (find_all_limit (TagIn [lit "h1"; lit "h2"; lit "h3"]) [] 20 soup));
     main_text :=
       List.map (slice_to 150)
         (List.filter (fun t => (20 <? List.length t)%nat)
            (List.map (get_text true) (find_all_limit (TagNamed (lit "p")) [] 30 soup)));
     links :=
       omap (nav_link_of page_url)
         (find_all_limit (TagNamed (lit "a")) [AttrPresent (lit "href")] 50 soup) |}.

(** [scrape_page_content(url)]: the content dict, [None] standing for
    the empty dict returned when the fetch failed. *)
Definition scrape_page_content (w : web) (page_url : str) : result (option content) * list event :=
  let '(r, _, t) :=
    (print Analyzing_page_structure ;;
     soup <- get_page_content w page_url ;;
     ret (option_map (content_of page_url) soup)) tt in
  (r, t).

End DurexScraper.

(* ===================================================================== *)
(** * Saving the results: the [save_*] functions and the [main]s *)
(* ===================================================================== *)

Module Script.

(** What [save_*] and [main] print, one constructor per message. *)
Inductive note :=
| No_books_to_save
| Saved_books (n : nat) (filename : str)
| Starting_book_scraper
| Target (url : str)
| Total_books_scraped (n : nat)
| No_books_were_scraped
| Saved_frame (n : nat) (path : str)
| No_products_to_save
| Saved_products (n : nat) (filename : str)
| Content_summary_saved (filename : str)
| Starting_durex_scraper
| Page_title (title : str)
| Found_headings (n : nat)
| Found_text_sections (n : nat)
| Found_links (n : nat)
| Rule
| Total_products_found (n : nat)
| No_products_found
| May_require_custom_parsing
| Check_content_file.

(** What a script does, in order: the events of its scrapes, what it
    prints besides, and the files it writes. A CSV file is given by its
    header and its rows, a text file by its text. *)
Inductive action :=
| Ran (e : event)
| Say (n : note)
| Write_books (filename : str) (fieldnames : list str) (rows : list BookScraper.book_row)
| Write_products (filename : str) (fieldnames : list str) (rows : list DurexScraper.product)
| Write_text (filename : str) (text : str).

(** The files written, in order. *)
Definition files (acts : list action) : list str :=
  flat_map (fun a => match a with
                     | Write_books f _ _ | Write_products f _ _ | Write_text f _ => [f]
                     | _ => []
                     end) acts.

(** The events of the scrapes. *)
Definition ran (acts : list action) : list event :=
  flat_map (fun a => match a with Ran e => [e] | _ => [] end) acts.

(** The writes among the actions, in order. *)
Definition writes (acts : list action) : list action :=
  List.filter (fun a => match a with
                        | Write_books _ _ _ | Write_products _ _ _ | Write_text _ _ => true
                        | _ => false
                        end) acts.

Definition newline : str := [10%N].

End Script.

Import Script.

Module BookScraperScript.

Definition fieldnames : list str := [lit "title"; lit "price"; lit "rating"].

(** [save_to_csv(books, filename)] *)
Definition save_to_csv (books : list BookScraper.book_row) (filename : str) : list action :=
  match books with
  | [] => [Say No_books_to_save]
  | _ :: _ =>
      [Write_books filename fieldnames books;
       Say (Saved_books (List.length books) filename)]
  end.

Definition base_url : str := lit "https://books.toscrape.com".

(** [main()] *)
Definition main (w : web) : result unit * list action :=
  let '(r, t) := BookScraper.scrape_books w base_url 50 in
  let start :=
    [Say Starting_book_scraper; Say (Target base_url)] ++ List.map Ran t in
  match r with
  | Raise e => (Raise e, start)
  | Return books =>
      (Return tt,
       start ++
       match books with
       | [] => [Say No_books_were_scraped]
       | _ :: _ =>
           save_to_csv books (lit "books.csv") ++
           [Say (Total_books_scraped (List.length books))]
       end)
  end.

End BookScraperScript.

Module BookScraper2Script.

(** The columns of [pd.DataFrame(books)]: the keys of the rows, none
    when there is no row. *)
Definition columns (books : list BookScraper.book_row) : list str :=
  match books with
  | [] => []
  | _ :: _ => [lit "title"; lit "price"; lit "rating"]
  end.

Definition url : str := lit "https://books.toscrape.com".

(** [main()]; [output_path] is [books.csv] beside the script. *)
Definition main (w : web) (output_path : str) : result unit * list action :=
  let '(r, t) := BookScraper2.scrape_books w url in
  match r with
  | Raise e => (Raise e, List.map Ran t)
  | Return books =>
      (Return tt,
       List.map Ran t ++
       [Write_books output_path (columns books) books;
        Say (Saved_frame (List.length books) output_path)])
  end.

End BookScraper2Script.

Module DurexScraperScript.

Definition fieldnames : list str :=
  [lit "title"; lit "description"; lit "category"; lit "link"].

(** [save_products_to_csv(products, filename)] *)
Definition save_products_to_csv (products : list DurexScraper.product) (filename : str)
    : list action :=
  match products with
  | [] => [Say No_products_to_save]
  | _ :: _ =>
      [Write_products filename fieldnames products;
       Say (Saved_products (List.length products) filename)]
  end.

(** The lines written for a list under its heading, lines 202-218:
    nothing for an empty list, else the heading, a numbered line for
    each entry and an empty line. *)
Definition numbered (heading : str) (line : str -> str) (entries : list str) : str :=
  match entries with
  | [] => []
  | _ :: _ =>
      heading ++ newline ++
      List.concat
        (List.map (fun ie => lit "  " ++ str_of_int ie.1 ++ lit ". " ++ line ie.2 ++ newline)
                  (enumerate 1 entries)) ++
      newline
  end.

(** The text [save_content_summary] writes. The source tests
    [main_text] before it cuts it to ten entries; the cut list is empty
    exactly when the list is. *)
Definition summary_text (c : DurexScraper.content) : str :=
  lit "=== DUREX.CO.UK CONTENT ANALYSIS ===" ++ newline ++ newline ++
  match DurexScraper.page_title c with
  | [] => []
  | title => lit "PAGE TITLE: " ++ title ++ newline ++ newline
  end ++
  match DurexScraper.meta_description c with
  | [] => []
  | meta => lit "META DESCRIPTION: " ++ meta ++ newline ++ newline
  end ++
  numbered (lit "MAIN HEADINGS:") (fun heading => heading) (DurexScraper.page_headings c) ++
  numbered (lit "MAIN CONTENT EXCERPTS:") (fun text => text ++ lit "...")
           (firstn 10 (DurexScraper.main_text c)) ++
  match DurexScraper.links c with
  | [] => []
  | links =>
      lit "KEY LINKS:" ++ newline ++
      List.concat
        (List.map (fun il => lit "  " ++ str_of_int il.1 ++ lit ". " ++
                             DurexScraper.text il.2 ++ lit " -> " ++
                             DurexScraper.url il.2 ++ newline)
                  (enumerate 1 (firstn 20 links))) ++
      newline
  end.

(** [save_content_summary(content, filename)] *)
Definition save_content_summary (c : DurexScraper.content) (filename : str) : list action :=
  [Write_text filename (summary_text c); Say (Content_summary_saved filename)].

Definition base_url : str := lit "https://www.durex.co.uk".

(** [main()]. The site answers the request of [scrape_page_content] as
    [w1] and the later request of [scrape_products] as [w2]. *)
Definition main (w1 w2 : web) : result unit * list action :=
  let start := [Say Starting_durex_scraper; Say (Target base_url)] in
  let '(r1, t1) := DurexScraper.scrape_page_content w1 base_url in
  match r1 with
  | Raise e => (Raise e, start ++ List.map Ran t1)
  | Return content =>
      let analysed :=
        match content with
        | Some c =>
            [Say (Page_title (DurexScraper.page_title c));
             Say (Found_headings (List.length (DurexScraper.page_headings c)));
             Say (Found_text_sections (List.length (DurexScraper.main_text c)));
             Say (Found_links (List.length (DurexScraper.links c)))] ++
            save_content_summary c (lit "durex_content.txt")
        | None => []
        end in
      let '(r2, t2) := DurexScraper.scrape_products w2 base_url in
      let before := start ++ List.map Ran t1 ++ analysed ++ [Say Rule] ++ List.map Ran t2 in
      match r2 with
      | Raise e => (Raise e, before)
      | Return products =>
          (Return tt,
           before ++
           match products with
           | [] => [Say No_products_found; Say May_require_custom_parsing;
                    Say Check_content_file]
           | _ :: _ =>
               save_products_to_csv products (lit "durex_products.csv") ++
               [Say (Total_products_found (List.length products))]
           end)
      end
  end.

End DurexScraperScript.

(* ===================================================================== *)
(** * Vocabulary of the statements *)
(* ===================================================================== *)

(** The ASCII digits of a list of digit values. *)
Definition digit_chars (ds : list N) : str := List.map (fun d => 48 + d)%N ds.

(** The characters of an unsigned decimal: the ASCII digits and the
    point. *)
Definition decimal_char (c : N) : Prop := c ∈ lit "0123456789.".

(** The text [ip.fp] of an unsigned decimal with integer digits [ip]
    and fraction digits [fp], and the number it denotes. *)
Definition decimal_text (ip fp : list N) : str :=
  digit_chars ip ++ lit "." ++ digit_chars fp.

Definition decimal_value (ip fp : list N) : Q :=
  decimal false (digits_value (ip ++ fp)) (- Z.of_nat (List.length fp)).

Definition slash : N := 47%N.

Definition is_alpha (c : N) : bool :=
  ((65 <=? c) && (c <=? 90) || (97 <=? c) && (c <=? 122))%N.

(** The specification's "href already has a scheme", read as RFC 3986
    has it: a letter, then letters, digits, [+], [-] or [.], then a
    colon. *)
Fixpoint scheme_tail (s : str) : bool :=
  match s with
  | [] => false
  | c :: s' =>
      if (c =? 58)%N then true
      else (is_alpha c || is_digit c || (c =? 43) || (c =? 45) || (c =? 46))%N
           && scheme_tail s'
  end.

Definition has_scheme (href : str) : bool :=
  match href with
  | c :: s' => is_alpha c && scheme_tail s'
  | [] => false
  end.

(** The specification's [resolveLink(href, baseUrl)] as the product
    scraper computes it. *)
Definition resolveLink (href baseUrl : str) : str := DurexScraper.resolve_link href baseUrl.

(** The results of [f] over the longest prefix of [xs] on which it
    returns: what a loop has appended when it ends or raises. *)
Fixpoint returned {A B : Type} (f : A -> result B) (xs : list A) : list B :=
  match xs with
  | [] => []
  | x :: xs' =>
      match f x with
      | Return b => b :: returned f xs'
      | Raise _ => []
      end
  end.

(** The rows of page [page] of the book site, when the page is served,
    has containers and every container is extracted. *)
Definition page_rows (w : web) (url : str) (page : Z) : option (list BookScraper.book_row) :=
  match w (BookScraper.page_url url page) with
  | inr soup =>
      match BookScraper.book_containers_of soup with
      | [] => None
      | cs =>
          match traverse BookScraper.extract_book cs with
          | Return rows => Some rows
          | Raise _ => None
          end
      end
  | inl _ => None
  end.

Definition rows_of_pages (w : web) (url : str) (pages : list Z) : list BookScraper.book_row :=
  flat_map (fun page => default [] (page_rows w url page)) pages.

(** A site that serves the listed pages and times out elsewhere. *)
Definition site (pages : list (str * node)) : web :=
  fun u =>
    match List.find (fun p => str_eqb u p.1) pages with
    | Some p => inr p.2
    | None => inl Timeout
    end.

Definition ordinal_words : list str :=
  [lit "One"; lit "Two"; lit "Three"; lit "Four"; lit "Five"].

Definition not_request_exception (e : exn) : Prop :=
  match e with RequestException _ => False | _ => True end.

(** [<tag class=cls>children</tag>] *)
Definition elt (tag : string) (cls : list string) (children : list node) : node :=
  Tag (lit tag) (match cls with [] => None | _ => Some (List.map lit cls) end) ∅ children.

(** A document with the given top-level nodes. *)
Definition document (children : list node) : node :=
  Tag (lit "[document]") None ∅ children.

(** A book container as books.toscrape.com serves it. *)
Definition product_pod (title price : str) (rating : string) : node :=
  elt "article" ["product_pod"%string]
    [elt "p" ["star-rating"%string; rating] [];
     elt "h3" [] [Tag (lit "a") None {[ lit "title" := title ]} []];
     elt "p" ["price_color"%string] [NavigableString price]].

Definition books_url : str := lit "https://books.toscrape.com".

(** Two pages of books; every other URL times out. *)
Definition two_pages : web :=
  site
    [(books_url,
      document [product_pod (lit "A Light in the Attic") (pound ++ lit "51.77") "Three";
                product_pod (lit "Tipping the Velvet") (pound ++ lit "53.74") "One"]);
     (books_url ++ lit "/catalogue/page-2.html",
      document [product_pod (lit "Soumission") (pound ++ lit "50.10") "One"])].

(** One page of books, then a page without any. *)
Definition page_then_empty : web :=
  site
    [(books_url,
      document [product_pod (lit "A Light in the Attic") (pound ++ lit "51.77") "Three";
                product_pod (lit "Tipping the Velvet") (pound ++ lit "53.74") "One"]);
     (books_url ++ lit "/catalogue/page-2.html",
      document [elt "p" [] [NavigableString (lit "No results")]])].

(** A book container with a price but no [h3] and no rating. *)
Definition pod_without_h3 : node :=
  elt "article" ["product_pod"%string]
    [elt "p" ["price_color"%string] [NavigableString (pound ++ lit "53.74")]].

(** A page whose second container has no [h3]. *)
Definition page_without_h3 : web :=
  site
    [(books_url,
      document [product_pod (lit "A Light in the Attic") (pound ++ lit "51.77") "Three";
                pod_without_h3])].

(** A book container whose anchor has no title, with no price and no
    rating. *)
Definition pod_without_title : node :=
  elt "article" ["product_pod"%string]
    [elt "h3" [] [Tag (lit "a") None {[ lit "href" := lit "x.html" ]} []]].

(** A page whose only container is that one. *)
Definition page_without_title : web :=
  site [(books_url, document [pod_without_title])].

(** A page whose first container has a price that is a word. *)
Definition page_with_free_book : web :=
  site
    [(books_url,
      document [product_pod (lit "A Light in the Attic") (lit "Free") "Three";
                product_pod (lit "Tipping the Velvet") (pound ++ lit "53.74") "One"])].

(** A page whose second container has a price that is not a number. *)
Definition page_with_bad_price : web :=
  site
    [(books_url,
      document [product_pod (lit "A Light in the Attic") (pound ++ lit "51.77") "Three";
                product_pod (lit "Tipping the Velvet") (pound ++ lit "TBC") "One"])].

Definition durex_url : str := lit "https://www.durex.co.uk".

(** A page of three product cards: one with a title, a description and
    a link, one with neither title nor description, one with a
    description only. *)
Definition three_cards_page : node :=
  document
    [elt "div" ["product-card"%string]
       [elt "h2" ["product-title"%string] [NavigableString (lit " Thin Feel ")];
        elt "p" ["description"%string] [NavigableString (lit "Thinner for more feeling")];
        Tag (lit "a") None {[ lit "href" := lit "/products/thin-feel" ]} []];
     elt "div" ["item"%string] [elt "span" [] [NavigableString (lit "New")]];
     elt "div" ["card"%string]
       [elt "p" ["summary"%string] [NavigableString (lit "Free delivery")]]].

Definition three_cards : web := site [(durex_url, three_cards_page)].

(** An anchor [<a href=h>t</a>]. *)
Definition anchor (h t : str) : node :=
  Tag (lit "a") None {[ lit "href" := h ]} [NavigableString t].

(** Page [page] ends a session of the book scraper: its fetch fails or
    it has no book container. *)
Definition page_stops (w : web) (url : str) (page : Z) : Prop :=
  match w (BookScraper.page_url url page) with
  | inl _ => True
  | inr soup => BookScraper.book_containers_of soup = []
  end.

(** The exceptions extraction can raise. *)
Definition extraction_error (e : exn) : Prop := e = AttributeError \/ e = ValueError.

(** The pauses of a trace, and the product lines printed in it. *)
Definition sleeps (t : list event) : nat :=
  List.length (List.filter (fun e => match e with Sleep => true | _ => false end) t).

Definition product_lines (t : list event) : nat :=
  List.length
    (List.filter (fun e => match e with Print (Product_line _) => true | _ => false end) t).

(** A link as the product scraper and the page content leave it: kept
    because it begins with [http], or joined to the base URL. *)
Definition resolved (base_url link : str) : Prop :=
  startswith (lit "http") link = true \/
  startswith (rstrip (lit "/") base_url ++ lit "/") link = true.

(** A site that answers every request with the same response. *)
Definition always (r : request_error + node) : web := fun _ => r.

(** A float that is not negative: a finite value from 0 on, or the
    positive infinity. *)
Definition nonneg_float (x : pyfloat) : Prop :=
  match x with
  | F_num q => (0 <= q)%Q
  | F_inf neg => neg = false
  | F_nan => False
  end.

(** A text of white space only, as [str.strip] sees it. *)
Definition blank (s : str) : Prop := Forall (fun c => isspace c = true) s.

(* ===================================================================== *)
(** * Strings *)
(* ===================================================================== *)

Section Strings.

Implicit Types (s p t : str) (c : N) (drop : N -> bool).

Lemma startswith_app p t : startswith p (p ++ t) = true.
Proof. induction p as [|a p IH]; simpl; [done|]. by rewrite N.eqb_refl. Qed.

Lemma startswith_prefix p s : startswith p s = true <-> exists t, s = p ++ t.
Proof.
  split.
  - revert s. induction p as [|a p IH]; intros [|b s] H; simpl in *; try done.
    + by exists [].
    + by exists (b :: s).
    + apply andb_true_iff in H as [Hab H]. apply N.eqb_eq in Hab as ->.
      destruct (IH _ H) as [t ->]. by exists t.
  - intros [t ->]. apply startswith_app.
Qed.

Lemma startswith_app_l p s t : startswith p s = true -> startswith p (s ++ t) = true.
Proof.
  intros H. apply startswith_prefix in H as [u ->].
  rewrite <- List.app_assoc. apply startswith_app.
Qed.

Lemma lstrip_by_head drop s c :
  head (lstrip_by drop s) = Some c -> drop c = false.
Proof.
  induction s as [|a s IH]; simpl; [done|].
  destruct (drop a) eqn:Ha; [done|]. simpl. by intros [= <-].
Qed.

Lemma lstrip_by_id drop s : from_option drop false (head s) = false -> lstrip_by drop s = s.
Proof. destruct s as [|a s]; simpl; [done|]. by intros ->. Qed.

Lemma lstrip_by_app drop s t :
  lstrip_by drop (s ++ t) =
    match lstrip_by drop s with
    | [] => lstrip_by drop t
    | u => u ++ t
    end.
Proof.
  induction s as [|a s IH]; simpl.
  - by destruct (lstrip_by drop t).
  - by destruct (drop a).
Qed.

Lemma last_rev {A} (l : list A) : last (List.rev l) = head l.
Proof. destruct l as [|a l]; simpl; [done|]. apply last_snoc. Qed.

Lemma rstrip_by_last drop s c :
  last (rstrip_by drop s) = Some c -> drop c = false.
Proof.
  unfold rstrip_by. rewrite last_rev. apply lstrip_by_head.
Qed.

Lemma rstrip_by_snoc drop s c : drop c = false -> rstrip_by drop (s ++ [c]) = s ++ [c].
Proof.
  intros H. unfold rstrip_by. rewrite List.rev_app_distr. simpl. rewrite H.
  change (c :: List.rev s) with ([c] ++ List.rev s).
  by rewrite List.rev_app_distr, List.rev_involutive.
Qed.

Lemma rstrip_by_app drop s t :
  rstrip_by drop (s ++ t) =
    match rstrip_by drop t with
    | [] => rstrip_by drop s
    | u => s ++ u
    end.
Proof.
  unfold rstrip_by. rewrite List.rev_app_distr, lstrip_by_app.
  destruct (lstrip_by drop (List.rev t)) as [|a u] eqn:E; simpl; [done|].
  rewrite List.rev_app_distr, List.rev_involutive, <- List.app_assoc.
  by destruct (List.rev u).
Qed.

Lemma startswith_take p s : startswith p s = true <-> take (List.length p) s = p.
Proof.
  rewrite startswith_prefix. split.
  - intros [t ->]. by rewrite take_app_length.
  - intros H. exists (drop (List.length p) s). by rewrite <- H at 1; rewrite take_drop.
Qed.

Lemma startswith_false_take p s : startswith p s = false <-> take (List.length p) s <> p.
Proof. rewrite <- startswith_take. by destruct (startswith p s). Qed.

Lemma rstrip_slash_keeps_http s :
  startswith (lit "http") s = true -> startswith (lit "http") (rstrip (lit "/") s) = true.
Proof.
  intros H. apply startswith_prefix in H as [t ->]. unfold rstrip.
  rewrite rstrip_by_app. destruct (rstrip_by _ t); [done|apply startswith_app].
Qed.

End Strings.

(* ===================================================================== *)
(** * Link resolution *)
(* ===================================================================== *)

Section Links.

Import DurexScraper.

Implicit Types (href base_url : str).

Lemma resolve_link_http href base_url :
  startswith (lit "http") href = true -> resolve_link href base_url = href.
Proof. intros H. unfold resolve_link. by rewrite H, andb_false_r. Qed.

Lemma resolve_link_NA base_url : resolve_link NA base_url = NA.
Proof. done. Qed.

Lemma resolve_link_relative href base_url :
  startswith (lit "http") href = false -> href <> NA ->
  resolve_link href base_url = rstrip (lit "/") base_url ++ lit "/" ++ lstrip (lit "/") href.
Proof.
  intros H Hna. unfold resolve_link, str_eqb. rewrite H.
  by rewrite bool_decide_eq_false_2.
Qed.

Lemma lstrip_slash_head href : head (lstrip (lit "/") href) <> Some slash.
Proof. intros H. by apply lstrip_by_head in H. Qed.

Lemma rstrip_slash_last base_url : last (rstrip (lit "/") base_url) <> Some slash.
Proof. intros H. by apply rstrip_by_last in H. Qed.

Lemma nav_link_of_spec (page_url : str) (a : node) :
  nav_link_of page_url a =
    let href := get (lit "href") [] a in
    let text := get_text true a in
    if bool_decide (text = []) || bool_decide (href = []) || startswith (lit "#") href
    then None
    else Some {| text := text;
                 url := if startswith (lit "http") href then href
                        else rstrip (lit "/") page_url ++ lit "/" ++ lstrip (lit "/") href |}.
Proof.
  unfold nav_link_of. cbv zeta.
  destruct (get_text true a) as [|c t]; [done|].
  destruct (get (lit "href") [] a) as [|d h]; [done|].
  rewrite !bool_decide_eq_false_2 by done. cbn [orb].
  destruct (startswith (lit "#") (d :: h)); [done|].
  by destruct (startswith (lit "http") (d :: h)).
Qed.

(** C10. Absoluteness is a test on the first four characters: an href
    whose first four characters are [http] (such as [httpfoo]) is kept
    as it is, and any other href (such as [ftp://host/x], which has a
    scheme) is joined to the base URL, in the product scraper (where the
    sentinel is left alone) and in the navigation links of the page
    content. *)
Theorem link_absolute_by_http_prefix (href base_url : str) (a : node) :
  (take 4 href = lit "http" -> resolve_link href base_url = href) /\
  (take 4 href <> lit "http" -> href <> NA ->
     resolve_link href base_url =
       rstrip (lit "/") base_url ++ lit "/" ++ lstrip (lit "/") href) /\
  (get (lit "href") [] a = href -> href <> [] -> get_text true a <> [] ->
     startswith (lit "#") href = false ->
     url <$> nav_link_of base_url a =
       Some (if bool_decide (take 4 href = lit "http") then href
             else rstrip (lit "/") base_url ++ lit "/" ++ lstrip (lit "/") href)) /\
  resolve_link (lit "httpfoo") base_url = lit "httpfoo" /\
  has_scheme (lit "ftp://host/x") = true /\
  resolve_link (lit "ftp://host/x") base_url =
    rstrip (lit "/") base_url ++ lit "/ftp://host/x".
Proof.
  split_and!; try done.
  - intros H. by apply resolve_link_http, startswith_take.
  - intros H Hna. by apply resolve_link_relative; [apply startswith_false_take|].
  - intros Hh Hne Ht Hhash. rewrite nav_link_of_spec. cbv zeta.
    rewrite Hh, Hhash, !bool_decide_eq_false_2 by done. cbn [orb].
    destruct (startswith (lit "http") href) eqn:E;
      cbn [fmap option_fmap option_map url]; f_equal.
    + apply startswith_take in E. by rewrite bool_decide_eq_true_2.
    + apply startswith_false_take in E. by rewrite bool_decide_eq_false_2.
Qed.

Lemma link_absolute_by_http_prefix_witness :
  resolve_link (lit "https://www.durex.co.uk/condoms") (lit "https://www.durex.co.uk") =
    lit "https://www.durex.co.uk/condoms" /\
  resolve_link (lit "/condoms") (lit "https://www.durex.co.uk/") =
    lit "https://www.durex.co.uk/condoms" /\
  url <$> nav_link_of (lit "https://www.durex.co.uk") (anchor (lit "mailto:a@b.c") (lit "Mail")) =
    Some (lit "https://www.durex.co.uk/mailto:a@b.c").
Proof.
  split_and!.
  - apply (link_absolute_by_http_prefix _ (lit "https://www.durex.co.uk") (anchor [] [])).
    reflexivity.
  - destruct (link_absolute_by_http_prefix (lit "/condoms") (lit "https://www.durex.co.uk/")
                (anchor [] [])) as (_ & H & _).
    apply H; vm_compute; discriminate.
  - destruct (link_absolute_by_http_prefix (lit "mailto:a@b.c") (lit "https://www.durex.co.uk")
                (anchor (lit "mailto:a@b.c") (lit "Mail"))) as (_ & _ & H & _).
    apply H; [reflexivity|vm_compute; discriminate..|reflexivity].
Defined.

(** C9, the claim as stated fails: with a base URL that does not begin
    with [http] in lower case, resolving a relative href twice prefixes
    the base twice. *)
Lemma resolveLink_twice_differs :
  resolveLink (lit "a") (lit "HTTP://www.durex.co.uk") = lit "HTTP://www.durex.co.uk/a" /\
  resolveLink (resolveLink (lit "a") (lit "HTTP://www.durex.co.uk")) (lit "HTTP://www.durex.co.uk") =
    lit "HTTP://www.durex.co.uk/HTTP://www.durex.co.uk/a" /\
  resolveLink (resolveLink (lit "a") (lit "HTTP://www.durex.co.uk")) (lit "HTTP://www.durex.co.uk")
    <> resolveLink (lit "a") (lit "HTTP://www.durex.co.uk").
Proof. split_and!; [by vm_compute..|]. vm_compute. discriminate. Qed.

(** C9, amended. Resolving twice is resolving once for every href when
    the base URL begins with [http], and for every base URL when the
    href begins with [http] or is the sentinel. *)
Theorem resolveLink_idempotent (x b : str) :
  startswith (lit "http") b = true \/ startswith (lit "http") x = true \/ x = NA ->
  resolveLink (resolveLink x b) b = resolveLink x b.
Proof.
  unfold resolveLink. intros H.
  destruct (startswith (lit "http") x) eqn:Hx.
  { by rewrite !(resolve_link_http x) by done. }
  destruct (decide (x = NA)) as [->|Hna]; [done|].
  destruct H as [Hb|[?|?]]; [|done..].
  rewrite (resolve_link_relative x) by done.
  apply resolve_link_http, startswith_app_l. by apply rstrip_slash_keeps_http.
Qed.

Lemma resolveLink_idempotent_witness :
  resolveLink (resolveLink (lit "/condoms") (lit "https://www.durex.co.uk/"))
              (lit "https://www.durex.co.uk/") =
    resolveLink (lit "/condoms") (lit "https://www.durex.co.uk/").
Proof. apply resolveLink_idempotent. left. reflexivity. Defined.

(** C7, the claim as stated fails: an href with a scheme other than
    [http...] is not returned unchanged. *)
Lemma link_with_scheme_is_joined :
  has_scheme (lit "ftp://host/x") = true /\
  resolveLink (lit "ftp://host/x") (lit "https://www.durex.co.uk") =
    lit "https://www.durex.co.uk/ftp://host/x" /\
  url <$> nav_link_of (lit "https://www.durex.co.uk") (anchor (lit "mailto:a@b.c") (lit "Mail")) =
    Some (lit "https://www.durex.co.uk/mailto:a@b.c").
Proof. by vm_compute. Qed.

(** C7, amended. An href that begins with [http] is returned unchanged;
    any other href (in the product scraper: other than the sentinel, an
    in-page anchor such as [#top] included) is joined to the base URL,
    the base without its trailing slashes, one slash, the href without
    its leading slashes; in the navigation links an href that begins
    with [#] gives no link. *)
Theorem link_resolution (href base_url : str) (a : node) :
  (startswith (lit "http") href = true -> resolve_link href base_url = href) /\
  (startswith (lit "http") href = false -> href <> NA ->
     exists b h,
       resolve_link href base_url = b ++ [slash] ++ h /\
       b = rstrip (lit "/") base_url /\ h = lstrip (lit "/") href /\
       last b <> Some slash /\ head h <> Some slash) /\
  (startswith (lit "#") (get (lit "href") [] a) = true ->
     nav_link_of base_url a = None) /\
  (get (lit "href") [] a = href -> href <> [] -> get_text true a <> [] ->
   startswith (lit "#") href = false ->
     exists b h,
       url <$> nav_link_of base_url a =
         Some (if startswith (lit "http") href then href else b ++ [slash] ++ h) /\
       b = rstrip (lit "/") base_url /\ h = lstrip (lit "/") href /\
       last b <> Some slash /\ head h <> Some slash).
Proof.
  split_and!.
  - apply resolve_link_http.
  - intros H Hna. eexists _, _. split_and!; [|done|done|..].
    + by apply resolve_link_relative.
    + apply rstrip_slash_last.
    + apply lstrip_slash_head.
  - intros H. rewrite nav_link_of_spec. cbv zeta. by rewrite H, orb_true_r.
  - intros Hh Hne Ht Hhash. eexists _, _. split_and!; [|done|done|..].
    + rewrite nav_link_of_spec. cbv zeta.
      by rewrite Hh, Hhash, !bool_decide_eq_false_2 by done.
    + apply rstrip_slash_last.
    + apply lstrip_slash_head.
Qed.

Lemma link_resolution_witness :
  (exists b h,
     resolve_link (lit "//condoms/") (lit "https://www.durex.co.uk//") = b ++ [slash] ++ h /\
     b = lit "https://www.durex.co.uk" /\ h = lit "condoms/") /\
  (exists b h,
     resolve_link (lit "#top") (lit "https://www.durex.co.uk") = b ++ [slash] ++ h /\
     b = lit "https://www.durex.co.uk" /\ h = lit "#top") /\
  nav_link_of (lit "https://www.durex.co.uk") (anchor (lit "#top") (lit "Top")) = None.
Proof.
  split_and!.
  - destruct (proj1 (proj2 (link_resolution (lit "//condoms/") (lit "https://www.durex.co.uk//")
                              (anchor [] []))))
      as (b & h & E & -> & -> & _); [reflexivity|vm_compute; discriminate|].
    by eexists _, _.
  - destruct (proj1 (proj2 (link_resolution (lit "#top") (lit "https://www.durex.co.uk")
                              (anchor [] []))))
      as (b & h & E & -> & -> & _); [reflexivity|vm_compute; discriminate|].
    by eexists _, _.
  - apply (link_resolution [] [] (anchor (lit "#top") (lit "Top"))). reflexivity.
Defined.

End Links.

(* ===================================================================== *)
(** * Prices *)
(* ===================================================================== *)

Section Prices.

Implicit Types (s : str) (c d : N) (ip fp ds : list N).

Ltac decimal_char_cases H :=
  unfold decimal_char in H; vm_compute (lit _) in H;
  repeat (apply elem_of_cons in H as [->|H]); [..|by apply elem_of_nil in H].

Lemma digit_char_decimal d : (d < 10)%N -> decimal_char (48 + d).
Proof.
  intros H. unfold decimal_char. vm_compute (lit _).
  assert (d = 0 \/ d = 1 \/ d = 2 \/ d = 3 \/ d = 4 \/ d = 5 \/ d = 6 \/ d = 7 \/
          d = 8 \/ d = 9)%N as Hd by lia.
  rewrite !elem_of_cons.
  repeat destruct Hd as [->|Hd]; try subst d; simpl; tauto.
Qed.

Lemma digit_char_is_digit d : (d < 10)%N -> is_digit (48 + d) = true.
Proof. intros H. unfold is_digit. apply andb_true_iff. split; apply N.leb_le; lia. Qed.

Lemma decimal_text_chars ip fp :
  Forall (fun d => d < 10)%N ip -> Forall (fun d => d < 10)%N fp ->
  Forall decimal_char (decimal_text ip fp).
Proof.
  intros Hip Hfp. unfold decimal_text, digit_chars.
  rewrite !Forall_app, !Forall_fmap. split_and!.
  - eapply Forall_impl; [exact Hip|]. intros d Hd. by apply digit_char_decimal.
  - apply Forall_singleton. unfold decimal_char. vm_compute (lit _).
    rewrite !elem_of_cons. tauto.
  - eapply Forall_impl; [exact Hfp|]. intros d Hd. by apply digit_char_decimal.
Qed.

Lemma lstrip_by_decimal drop s :
  (forall c, decimal_char c -> drop c = false) ->
  Forall decimal_char s -> lstrip_by drop s = s.
Proof.
  intros Hd Hs. apply lstrip_by_id. destruct Hs as [|c s Hc _]; [done|]. by apply Hd.
Qed.

Lemma rstrip_by_id drop s : from_option drop false (last s) = false -> rstrip_by drop s = s.
Proof.
  destruct s as [|c s _] using rev_ind; [done|].
  rewrite last_snoc. apply rstrip_by_snoc.
Qed.

Lemma rstrip_by_decimal drop s :
  (forall c, decimal_char c -> drop c = false) ->
  Forall decimal_char s -> rstrip_by drop s = s.
Proof.
  intros Hd Hs. apply rstrip_by_id.
  destruct (last s) as [c|] eqn:E; [|done].
  apply Hd. apply last_Some_elem_of in E. by eapply Forall_forall in Hs.
Qed.

Lemma decimal_char_not_space c : decimal_char c -> isspace c = false.
Proof. intros H. decimal_char_cases H; done. Qed.

Lemma decimal_char_not_c_space c : decimal_char c -> c_isspace c = false.
Proof. intros H. decimal_char_cases H; done. Qed.

Lemma strip_decimal s : Forall decimal_char s -> strip s = s.
Proof.
  intros H. unfold strip.
  rewrite (lstrip_by_decimal _ _ decimal_char_not_space H).
  by apply rstrip_by_decimal; [apply decimal_char_not_space|].
Qed.

Lemma replace_absent c s :
  Forall (fun a => a <> c) s -> replace [c] [] s = s.
Proof.
  unfold replace. induction 1 as [|a s Ha _ IH]; [done|].
  cbn [replace_from startswith]. rewrite (proj2 (N.eqb_neq c a)) by done.
  cbn [andb]. by rewrite IH.
Qed.

Lemma replace_head c s : replace [c] [] (c :: s) = replace [c] [] s.
Proof.
  unfold replace. cbn [replace_from startswith]. by rewrite N.eqb_refl.
Qed.

Lemma decimal_chars_without c s :
  ~ decimal_char c -> Forall decimal_char s -> Forall (fun a => a <> c) s.
Proof. intros Hc Hs. eapply Forall_impl; [exact Hs|]. by intros a Ha ->. Qed.

Lemma pound_not_decimal : ~ decimal_char 163.
Proof.
  unfold decimal_char. vm_compute (lit _). rewrite !elem_of_cons, elem_of_nil.
  intros H. repeat destruct H as [H|H]; done.
Qed.

Lemma underscore_not_decimal : ~ decimal_char 95.
Proof.
  unfold decimal_char. vm_compute (lit _). rewrite !elem_of_cons, elem_of_nil.
  intros H. repeat destruct H as [H|H]; done.
Qed.

Lemma a_circumflex_not_decimal : ~ decimal_char 194.
Proof.
  unfold decimal_char. vm_compute (lit _). rewrite !elem_of_cons, elem_of_nil.
  intros H. repeat destruct H as [H|H]; done.
Qed.

Lemma read_digits_digit_chars ds s :
  Forall (fun d => d < 10)%N ds ->
  from_option is_digit false (head s) = false ->
  read_digits (digit_chars ds ++ s) = (ds, s).
Proof.
  intros Hds Hs. induction Hds as [|d ds Hd _ IH].
  - destruct s as [|c s]; [done|]. simpl in *. by rewrite Hs.
  - cbn [digit_chars List.map app read_digits]. fold (digit_chars ds).
    rewrite digit_char_is_digit, IH by done. do 2 f_equal. lia.
Qed.

Lemma read_sign_digit c s : is_digit c = true -> read_sign (c :: s) = (false, c :: s).
Proof.
  unfold is_digit, read_sign. intros [H1 _]%andb_true_iff. apply N.leb_le in H1.
  by rewrite !(proj2 (N.eqb_neq c _)) by lia.
Qed.

Lemma strtod_decimal ip fp :
  Forall (fun d => d < 10)%N ip -> Forall (fun d => d < 10)%N fp -> ip <> [] ->
  strtod (decimal_text ip fp) = Some (binary64 (decimal_value ip fp), []).
Proof.
  intros Hip Hfp Hne. unfold strtod, decimal_text.
  destruct ip as [|d ip]; [done|].
  cbn [digit_chars List.map app]. fold (digit_chars ip).
  rewrite read_sign_digit by (apply digit_char_is_digit; by inversion Hip).
  change ((48 + d)%N :: digit_chars ip ++ lit "." ++ digit_chars fp)
    with (digit_chars (d :: ip) ++ 46%N :: digit_chars fp).
  rewrite read_digits_digit_chars by done.
  cbn [read_fraction]. rewrite N.eqb_refl.
  rewrite <- (List.app_nil_r (digit_chars fp)), read_digits_digit_chars by done.
  cbn [app read_exponent]. unfold decimal_value. do 3 f_equal.
Qed.

(** [float] on the text of an unsigned decimal. *)
Lemma float_decimal ip fp :
  Forall (fun d => d < 10)%N ip -> Forall (fun d => d < 10)%N fp -> ip <> [] ->
  float (decimal_text ip fp) = Return (binary64 (decimal_value ip fp)).
Proof.
  intros Hip Hfp Hne.
  pose proof (decimal_text_chars ip fp Hip Hfp) as Hs.
  unfold float, transform_decimal_and_space.
  assert (forallb (fun c => c <? 128)%N (decimal_text ip fp) = true) as ->.
  { apply forallb_forall. intros c Hc%list_elem_of_In.
    eapply Forall_forall in Hs; [|done]. decimal_char_cases Hs; done. }
  assert (elem (decimal_text ip fp) 95 = false) as ->.
  { unfold elem. apply not_true_iff_false. intros (c & Hc%list_elem_of_In & E)%existsb_exists.
    apply N.eqb_eq in E as <-.
    eapply Forall_forall in Hs; [|done]. by apply underscore_not_decimal in Hs. }
  unfold float_from_string_inner.
  rewrite (lstrip_by_decimal _ _ decimal_char_not_c_space Hs).
  rewrite (rstrip_by_decimal _ _ decimal_char_not_c_space Hs).
  pose proof (strtod_decimal ip fp Hip Hfp Hne) as Hst.
  destruct (decimal_text ip fp) eqn:E; [destruct ip; [done|discriminate E]|].
  by rewrite Hst.
Qed.

(** [float] on literals it accepts, with the rounding, the overflow and
    the underflow of binary64, and on texts it rejects. *)
Example float_examples :
  float (lit "51.77") = Return (F_num (7285979772155331 # 140737488355328)) /\
  float (lit " 1_000.5_5 ") = Return (F_num (4400465436685107 # 4398046511104)) /\
  float (lit "1.5E-3") = Return (F_num (3458764513820541 # 2305843009213693952)) /\
  float (lit "-.5") = Return (F_num (-1 # 2)) /\
  float (lit "1.e3") = Return (F_num (1000 # 1)) /\
  float (lit "9007199254740993") = Return (F_num (9007199254740992 # 1)) /\
  float (lit "9007199254740995") = Return (F_num (9007199254740996 # 1)) /\
  float (lit "1.7976931348623158e308") = float (lit "1.7976931348623157e308") /\
  float (lit "1.7976931348623159e308") = Return (F_inf false) /\
  float (lit "1" ++ List.repeat 48%N 400) = Return (F_inf false) /\
  float (lit "-1e400") = Return (F_inf true) /\
  float (lit "2.5e-324") = Return (binary64 (Qpower (2 # 1) (-1074))) /\
  float (lit "2.4e-324") = Return (F_num 0) /\
  float (lit "iNfinity") = Return (F_inf false) /\
  float (lit "+nan") = Return F_nan /\
  float [1633; 1634; 160]%N = Return (F_num (12 # 1)) /\
  float (lit "1e") = Raise ValueError /\
  float (lit "1__0") = Raise ValueError /\
  float (lit ".") = Raise ValueError /\
  float (lit "") = Raise ValueError /\
  float (lit "infinit") = Raise ValueError /\
  float (28 :: lit "1")%N = Raise ValueError /\
  float (a_circumflex ++ lit "51.77") = Raise ValueError /\
  float (lit "0x10") = Raise ValueError.
Proof. vm_compute. repeat split. Qed.

Lemma decimal_value_nonneg ip fp : (0 <= decimal_value ip fp)%Q.
Proof.
  unfold decimal_value, decimal. rewrite Qred_correct.
  apply Qmult_le_0_compat; [|by apply Qpower_0_le].
  change 0%Q with (inject_Z 0). rewrite <- Zle_Qle. lia.
Qed.

End Prices.

(* ===================================================================== *)
(** * Ratings *)
(* ===================================================================== *)

Section Ratings.

Lemma rating_map_lookup (k : str) :
  BookScraper.rating_map !! k =
    if decide (k = lit "One") then Some 1
    else if decide (k = lit "Two") then Some 2
    else if decide (k = lit "Three") then Some 3
    else if decide (k = lit "Four") then Some 4
    else if decide (k = lit "Five") then Some 5
    else None.
Proof.
  unfold BookScraper.rating_map. rewrite !lookup_insert, lookup_empty.
  repeat case_decide; congruence.
Qed.

Lemma rating_maps_agree : BookScraper2.rating_map = BookScraper.rating_map.
Proof. reflexivity. Qed.

Lemma nth_error_lookup {A} (l : list A) (i : nat) : nth_error l i = l !! i.
Proof. revert i. induction l; intros [|i]; simpl; auto. Qed.

Lemma second_class (classes : list str) :
  (if (1 <? List.length classes)%nat then nth_error classes 1 else None) = classes !! 1%nat.
Proof. by destruct classes as [|a [|b l]]. Qed.

(** C6. The rating of a token is 1 to 5 exactly for the words One to
    Five, spelt so, and 0 for every other token and for no token; the
    token is the second entry of the class list of the rating element,
    and there is none when the list is shorter or the element absent.
    Both book scrapers agree. *)
Theorem rating_normalization (tok : option str) (classes : list str) (book : node) :
  (BookScraper.rating_map_get tok 0 = 1 <-> tok = Some (lit "One")) /\
  (BookScraper.rating_map_get tok 0 = 2 <-> tok = Some (lit "Two")) /\
  (BookScraper.rating_map_get tok 0 = 3 <-> tok = Some (lit "Three")) /\
  (BookScraper.rating_map_get tok 0 = 4 <-> tok = Some (lit "Four")) /\
  (BookScraper.rating_map_get tok 0 = 5 <-> tok = Some (lit "Five")) /\
  (BookScraper.rating_map_get tok 0 = 0 <->
     tok = None \/ exists w, tok = Some w /\ w ∉ ordinal_words) /\
  BookScraper2.rating_map_get tok 0 = BookScraper.rating_map_get tok 0 /\
  BookScraper.rating_of_class classes = BookScraper.rating_map_get (classes !! 1%nat) 0 /\
  BookScraper2.rating_of_classes classes = BookScraper.rating_map_get (classes !! 1%nat) 0 /\
  BookScraper.rating_of book =
    match find (TagNamed (lit "p")) [ClassIs (lit "star-rating")] book with
    | Some el => BookScraper.rating_map_get (get_class [] el !! 1%nat) 0
    | None => 0
    end /\
  BookScraper2.rating_of book = BookScraper.rating_of book /\
  BookScraper.rating_map_get (Some (lit "one")) 0 = 0 /\
  BookScraper.rating_map_get (Some (lit "FIVE")) 0 = 0 /\
  BookScraper.rating_map_get (Some (lit "Five ")) 0 = 0.
Proof.
  assert (Hget : forall t, BookScraper.rating_map_get t 0 =
            match t with
            | Some k => from_option id 0 (BookScraper.rating_map !! k)
            | None => 0
            end) by done.
  assert (Hcl : BookScraper.rating_of_class classes =
                  BookScraper.rating_map_get (classes !! 1%nat) 0).
  { unfold BookScraper.rating_of_class. cbv zeta. by rewrite second_class. }
  assert (Hbook : BookScraper2.rating_of book = BookScraper.rating_of book).
  { unfold BookScraper2.rating_of, BookScraper.rating_of. cbv zeta.
    by destruct (find _ _ book). }
  split_and!.
  1-5: rewrite Hget; destruct tok as [k|]; [rewrite rating_map_lookup|];
    repeat case_decide; simplify_eq; simpl; split; intros HH; simplify_eq; done.
  - rewrite Hget. destruct tok as [k|]; [|by split; [left|]].
    rewrite rating_map_lookup. unfold ordinal_words. split.
    + intros H. right. exists k. split; [done|].
      rewrite !elem_of_cons, elem_of_nil.
      repeat case_decide; simpl in H; try discriminate H. tauto.
    + intros [?|(w & [= <-] & Hw)]; [done|].
      rewrite !elem_of_cons in Hw. repeat case_decide; tauto.
  - done.
  - done.
  - unfold BookScraper2.rating_of_classes. cbv zeta. by rewrite second_class.
  - unfold BookScraper.rating_of. cbv zeta.
    destruct (find _ _ book); [|done].
    unfold BookScraper.rating_of_class. cbv zeta. by rewrite second_class.
  - done.
  - by vm_compute.
  - by vm_compute.
  - by vm_compute.
Qed.

End Ratings.

(* ===================================================================== *)
(** * Sessions *)
(* ===================================================================== *)

Section Sessions.

Lemma traverse_returned {A B} (f : A -> result B) xs rows :
  traverse f xs = Return rows -> returned f xs = rows.
Proof.
  revert rows. induction xs as [|x xs IH]; simpl; intros rows.
  - by intros [= <-].
  - destruct (f x); [|done]. destruct (traverse f xs); [|done].
    intros [= <-]. by rewrite (IH _ eq_refl).
Qed.

Lemma traverse_length {A B} (f : A -> result B) xs rows :
  traverse f xs = Return rows -> List.length rows = List.length xs.
Proof.
  revert rows. induction xs as [|x xs IH]; simpl; intros rows.
  - by intros [= <-].
  - destruct (f x); [|done]. destruct (traverse f xs); [|done].
    intros [= <-]. simpl. by rewrite (IH _ eq_refl).
Qed.

(** A loop that appends the result of [f] for each element. *)
Lemma for_each_append {A B} (f : A -> result B) (xs : list A) (acc : list B) :
  for_each xs
    (fun x => b <- lift (f x) ;; modify (fun l => l ++ [b]) ;; ret Continue) acc =
  (match traverse f xs with
   | Return _ => Return tt
   | Raise e => Raise e
   end, acc ++ returned f xs, []).
Proof.
  revert acc. induction xs as [|x xs IH]; intros acc; simpl.
  - by rewrite List.app_nil_r.
  - unfold bind at 1. unfold bind at 1. unfold lift at 1.
    destruct (f x) as [b|e]; simpl; [|by rewrite List.app_nil_r].
    rewrite IH. rewrite <- List.app_assoc. simpl.
    by destruct (traverse f xs).
Qed.

Lemma float_from_string_inner_raises s e :
  float_from_string_inner s = Raise e -> e = ValueError.
Proof.
  unfold float_from_string_inner.
  destruct (rstrip_by _ _); [by intros [= <-]|].
  destruct (match strtod _ with Some r => Some r | None => _ end) as [[x [|? ?]]|];
    by intros [= <-].
Qed.

Lemma float_raises s e : float s = Raise e -> e = ValueError.
Proof.
  unfold float. destruct (elem _ _); [destruct (drop_underscores _ _)|];
    first [apply float_from_string_inner_raises | by intros [= <-]].
Qed.

Lemma on_found_raises {A} o (m : node -> A) e : on_found o m = Raise e -> e = AttributeError.
Proof. destruct o; by intros [= <-]. Qed.

Lemma book_title_raises book e : BookScraper.title_of book = Raise e -> e = AttributeError.
Proof.
  unfold BookScraper.title_of.
  destruct (on_found _ _) as [t|e'] eqn:E.
  - apply on_found_raises.
  - intros [= <-]. by apply on_found_raises in E.
Qed.

Lemma book_price_raises book e : BookScraper.price_of book = Raise e -> e = ValueError.
Proof.
  unfold BookScraper.price_of. cbv zeta. destruct (find _ _ book); [|done].
  apply float_raises.
Qed.

Lemma extract_book_raises book e :
  BookScraper.extract_book book = Raise e -> e = AttributeError \/ e = ValueError.
Proof.
  unfold BookScraper.extract_book.
  destruct (BookScraper.title_of book) eqn:Et.
  - destruct (BookScraper.price_of book) eqn:Ep; [done|].
    intros [= <-]. right. by apply book_price_raises in Ep.
  - intros [= <-]. left. by apply book_title_raises in Et.
Qed.

Lemma traverse_raises {A B} (f : A -> result B) (P : exn -> Prop) xs e :
  (forall x e, f x = Raise e -> P e) -> traverse f xs = Raise e -> P e.
Proof.
  intros Hf. induction xs as [|x xs IH]; simpl; [done|].
  destruct (f x) eqn:E; [|intros [= <-]; eauto].
  destruct (traverse f xs); [done|]. intros [= <-]. by apply IH.
Qed.

Lemma extract_books_raise cs e :
  traverse BookScraper.extract_book cs = Raise e -> not_request_exception e.
Proof.
  apply traverse_raises. intros x e' H.
  by destruct (extract_book_raises _ _ H) as [-> | ->].
Qed.

(** One iteration of the loop over the pages. *)
Lemma scrape_page_run w url page bs :
  BookScraper.scrape_page w url page bs =
    let u := BookScraper.page_url url page in
    match w u with
    | inl e =>
        (Return Break, bs,
         [Print (Scraping_page page); Get u; Print (Error_scraping page e)])
    | inr soup =>
        let cs := BookScraper.book_containers_of soup in
        match cs with
        | [] =>
            (Return Break, bs,
             [Print (Scraping_page page); Get u; Print (No_books_found page)])
        | _ :: _ =>
            match traverse BookScraper.extract_book cs with
            | Return _ =>
                (Return Continue, bs ++ returned BookScraper.extract_book cs,
                 [Print (Scraping_page page); Get u;
                  Print (Found_books (List.length cs) page)])
            | Raise e =>
                (Raise e, bs ++ returned BookScraper.extract_book cs,
                 [Print (Scraping_page page); Get u])
            end
        end
    end.
Proof.
  cbv zeta. unfold BookScraper.scrape_page.
  unfold bind at 1. unfold print at 1, emit at 1.
  unfold try_except. unfold bind at 1. unfold requests_get at 1.
  unfold bind at 1. unfold emit at 1.
  destruct (w (BookScraper.page_url url page)) as [e|soup]; [done|].
  unfold ret at 1. cbn [app].
  destruct (BookScraper.book_containers_of soup) as [|c cs] eqn:Ecs; [done|].
  unfold bind at 1. rewrite for_each_append.
  pose proof (extract_books_raise (c :: cs)) as Hexn.
  destruct (traverse BookScraper.extract_book (c :: cs)) as [rows|e]; [done|].
  specialize (Hexn _ eq_refl). by destruct e.
Qed.

Lemma gets_app t1 t2 : gets (t1 ++ t2) = gets t1 ++ gets t2.
Proof. apply flat_map_app. Qed.

Lemma for_each_cons {S X} (x : X) xs (body : X -> M S control) s :
  for_each (x :: xs) body s =
    match body x s with
    | (Return Continue, s1, t1) =>
        let '(r, s2, t2) := for_each xs body s1 in (r, s2, t1 ++ t2)
    | (Return Break, s1, t1) => (Return tt, s1, t1)
    | (Raise e, s1, t1) => (Raise e, s1, t1)
    end.
Proof.
  simpl. unfold bind. destruct (body x s) as [[[[]|e] s1] t1]; try done.
  unfold ret. by rewrite List.app_nil_r.
Qed.

Lemma range_nil a b : b <= a -> range a b = [].
Proof. intros H. apply seqZ_nil. lia. Qed.

Lemma range_cons a b : a < b -> range a b = a :: range (a + 1) b.
Proof.
  intros H. unfold range. rewrite seqZ_cons by lia. do 2 f_equal; lia.
Qed.

Lemma range_split a n b :
  a <= n < b -> range a b = range a n ++ n :: range (n + 1) b.
Proof.
  intros H. rewrite <- (range_cons n b) by lia. unfold range.
  replace (b - a) with ((n - a) + (b - n)) by lia.
  rewrite seqZ_app by lia. do 2 f_equal; lia.
Qed.

Lemma range_length a b : List.length (range a b) = Z.to_nat (b - a).
Proof. apply length_seqZ. Qed.

Lemma page_url_first url : BookScraper.page_url url 1 = url.
Proof. done. Qed.

Example page_url_examples :
  BookScraper.page_url books_url 2 = lit "https://books.toscrape.com/catalogue/page-2.html" /\
  BookScraper.page_url books_url 50 = lit "https://books.toscrape.com/catalogue/page-50.html" /\
  range 1 (3 + 1) = [1; 2; 3] /\
  range 1 (0 + 1) = [].
Proof. by vm_compute. Qed.

(** The loop over a run of pages that are all served, non-empty and
    extracted: their rows are appended, one GET each, and the loop goes
    on with the pages that follow. *)
Lemma loop_good_pages w url ps rest bs :
  Forall (fun p => is_Some (page_rows w url p)) ps ->
  exists t0,
    gets t0 = List.map (BookScraper.page_url url) ps /\
    for_each (ps ++ rest) (BookScraper.scrape_page w url) bs =
      let '(r, s, t) :=
        for_each rest (BookScraper.scrape_page w url) (bs ++ rows_of_pages w url ps) in
      (r, s, t0 ++ t).
Proof.
  intros Hps. revert bs. induction Hps as [|p ps [rows Hp] _ IH]; intros bs.
  - exists []. split; [done|]. simpl. rewrite List.app_nil_r.
    by destruct (for_each rest _ bs) as [[r s] t].
  - destruct (IH (bs ++ rows)) as (t0 & Hg & Hrun).
    unfold rows_of_pages. cbn [flat_map]. fold (rows_of_pages w url ps).
    rewrite Hp. cbn [default from_option id].
    unfold page_rows in Hp.
    rewrite <- List.app_comm_cons, for_each_cons, scrape_page_run.
    cbv zeta.
    destruct (w (BookScraper.page_url url p)) as [e|soup]; [done|].
    destruct (BookScraper.book_containers_of soup) as [|c cs]; [done|].
    destruct (traverse BookScraper.extract_book (c :: cs)) as [rows'|] eqn:Et; [|done].
    injection Hp as ->. rewrite (traverse_returned _ _ _ Et), Hrun.
    rewrite List.app_assoc.
    destruct (for_each rest _ _) as [[r s] t].
    eexists (_ ++ t0). split; [|by rewrite <- List.app_assoc].
    rewrite gets_app, Hg. done.
Qed.

Lemma scrape_books_run w url max_pages :
  BookScraper.scrape_books w url max_pages =
    let '(r, s, t) :=
      for_each (range 1 (max_pages + 1)) (BookScraper.scrape_page w url) [] in
    (match r with Return _ => Return s | Raise e => Raise e end, t).
Proof.
  unfold BookScraper.scrape_books, BookScraper.scrape_books_from, bind, read.
  destruct (for_each _ _ []) as [[[[]|e] s] t]; [|done].
  by rewrite List.app_nil_r.
Qed.

(** The GETs of the loop are the URLs of the first pages, in order. *)
Lemma loop_gets_prefix w url ps bs :
  gets (for_each ps (BookScraper.scrape_page w url) bs).2
    `prefix_of` List.map (BookScraper.page_url url) ps.
Proof.
  revert bs. induction ps as [|p ps IH]; intros bs; [done|].
  rewrite for_each_cons, scrape_page_run. cbv zeta.
  assert (Hstop : forall (u : str) l, [u] `prefix_of` u :: l) by (intros u l; by exists l).
  destruct (w (BookScraper.page_url url p)) as [e|soup]; [apply Hstop|].
  destruct (BookScraper.book_containers_of soup) as [|c cs]; [apply Hstop|].
  destruct (traverse BookScraper.extract_book (c :: cs)); [|apply Hstop].
  specialize (IH (bs ++ returned BookScraper.extract_book (c :: cs))).
  destruct (for_each ps _ _) as [[r s] t]. simpl in *.
  by apply prefix_cons.
Qed.

(** The session up to a page [n] before which every page is served,
    non-empty and extracted. *)
Lemma session_reaches w url max_pages n :
  1 <= n <= max_pages ->
  (forall k, 1 <= k < n -> is_Some (page_rows w url k)) ->
  exists t0,
    gets t0 = List.map (BookScraper.page_url url) (range 1 n) /\
    for_each (range 1 (max_pages + 1)) (BookScraper.scrape_page w url) [] =
      let '(r, s, t) :=
        for_each (n :: range (n + 1) (max_pages + 1)) (BookScraper.scrape_page w url)
          (rows_of_pages w url (range 1 n)) in
      (r, s, t0 ++ t).
Proof.
  intros Hn Hgood. rewrite (range_split 1 n (max_pages + 1)) by lia.
  apply (loop_good_pages w url (range 1 n) _ []).
  apply List.Forall_forall. intros k Hk. apply Hgood.
  apply list_elem_of_In, elem_of_seqZ in Hk. lia.
Qed.

(** C5, the claim as stated fails for the sessions of
    [book_scraper2.py]: no handler stands around its one fetch, so a
    timeout or an HTTP status raises out of [scrape_books] and out of
    [main], and no file is written. *)
Lemma failed_fetch_leaves_book_scraper2 :
  BookScraper2.scrape_books (always (inl Timeout)) books_url =
    (Raise (RequestException Timeout), [Get books_url]) /\
  BookScraper2Script.main (always (inl (HTTPError 503))) (lit "books.csv") =
    (Raise (RequestException (HTTPError 503)), [Ran (Get books_url)]) /\
  writes (BookScraper2Script.main (always (inl (HTTPError 503))) (lit "books.csv")).2 = [].
Proof. by vm_compute. Qed.

(** C5, amended. In a session of [book_scraper.py], when the fetch of
    page [n] fails (a timeout, a connection error or an HTTP status),
    pages [1 .. n-1] having been scraped, the session returns the rows
    of pages [1 .. n-1]: nothing is raised, the failing URL is requested
    once and is the last request, and the run ends on the error message.
    The fetches of [durex_scraper.py] of such a URL likewise return,
    with no product, no content and no second request. The session of
    [book_scraper2.py] is the exception: its fetch of such a URL raises
    the request exception, after that one request. *)
Theorem fetch_failure_stops_session (w : web) (url : str) (max_pages n : Z)
    (e : request_error) :
  1 <= n <= max_pages ->
  (forall k, 1 <= k < n -> is_Some (page_rows w url k)) ->
  w (BookScraper.page_url url n) = inl e ->
  (exists t,
     BookScraper.scrape_books w url max_pages =
       (Return (rows_of_pages w url (range 1 n)), t) /\
     gets t = List.map (BookScraper.page_url url) (range 1 n)
                ++ [BookScraper.page_url url n] /\
     last t = Some (Print (Error_scraping n e))) /\
  DurexScraper.scrape_products w (BookScraper.page_url url n) =
    (Return [],
     [Print Fetching_main_page; Get (BookScraper.page_url url n);
      Print (Error_fetching (BookScraper.page_url url n) e);
      Print Failed_to_fetch_main_page]) /\
  DurexScraper.scrape_page_content w (BookScraper.page_url url n) =
    (Return None,
     [Print Analyzing_page_structure; Get (BookScraper.page_url url n);
      Print (Error_fetching (BookScraper.page_url url n) e)]) /\
  BookScraper2.scrape_books w (BookScraper.page_url url n) =
    (Raise (RequestException e), [Get (BookScraper.page_url url n)]).
Proof.
  intros Hn Hgood Hfail. split_and!; cycle 3.
  { unfold BookScraper2.scrape_books, BookScraper2.scrape_books_from, requests_get,
      bind, emit.
    by rewrite Hfail. }
  - destruct (session_reaches w url max_pages n Hn Hgood) as (t0 & Hg & Hrun).
    rewrite scrape_books_run, Hrun, for_each_cons, scrape_page_run. cbv zeta.
    rewrite Hfail. eexists. split_and!; [done|..].
    + by rewrite gets_app, Hg.
    + by rewrite last_app.
  - unfold DurexScraper.scrape_products, DurexScraper.scrape_products_from,
      DurexScraper.get_page_content, try_except, requests_get, bind, print, emit, read.
    by rewrite Hfail.
  - unfold DurexScraper.scrape_page_content,
      DurexScraper.get_page_content, try_except, requests_get, bind, print, emit.
    by rewrite Hfail.
Qed.

(** C4. When page [n] is served with no book container, pages
    [1 .. n-1] having been scraped, extraction of the page gives no row
    and the session ends there: it returns the rows of pages
    [1 .. n-1], the request for page [n] is the last one, and the run
    ends on the message that no books were found, not on an error. *)
Theorem empty_page_ends_session (w : web) (url : str) (max_pages n : Z) (soup : node) :
  1 <= n <= max_pages ->
  (forall k, 1 <= k < n -> is_Some (page_rows w url k)) ->
  w (BookScraper.page_url url n) = inr soup ->
  BookScraper.book_containers_of soup = [] ->
  traverse BookScraper.extract_book (BookScraper.book_containers_of soup) = Return [] /\
  exists t,
    BookScraper.scrape_books w url max_pages =
      (Return (rows_of_pages w url (range 1 n)), t) /\
    gets t = List.map (BookScraper.page_url url) (range 1 n)
               ++ [BookScraper.page_url url n] /\
    last t = Some (Print (No_books_found n)).
Proof.
  intros Hn Hgood Hpage Hempty. split; [by rewrite Hempty|].
  destruct (session_reaches w url max_pages n Hn Hgood) as (t0 & Hg & Hrun).
  rewrite scrape_books_run, Hrun, for_each_cons, scrape_page_run. cbv zeta.
  rewrite Hpage, Hempty. eexists. split_and!; [done|..].
  - by rewrite gets_app, Hg.
  - by rewrite last_app.
Qed.

Lemma fetch_failure_stops_session_witness :
  (BookScraper.scrape_books two_pages books_url 50).1 =
    Return [ {| BookScraper.title := lit "A Light in the Attic";
                BookScraper.price := binary64 (5177 # 100); BookScraper.rating := 3 |};
             {| BookScraper.title := lit "Tipping the Velvet";
                BookScraper.price := binary64 (2687 # 50); BookScraper.rating := 1 |};
             {| BookScraper.title := lit "Soumission";
                BookScraper.price := binary64 (501 # 10); BookScraper.rating := 1 |} ].
Proof.
  destruct (fetch_failure_stops_session two_pages books_url 50 3 Timeout)
    as [(t & -> & _) _].
  - lia.
  - intros k Hk. assert (k = 1 \/ k = 2) as [-> | ->] by lia; vm_compute; eauto.
  - reflexivity.
  - vm_compute. reflexivity.
Defined.

Lemma empty_page_ends_session_witness :
  (BookScraper.scrape_books page_then_empty books_url 50).1 =
    Return [ {| BookScraper.title := lit "A Light in the Attic";
                BookScraper.price := binary64 (5177 # 100); BookScraper.rating := 3 |};
             {| BookScraper.title := lit "Tipping the Velvet";
                BookScraper.price := binary64 (2687 # 50); BookScraper.rating := 1 |} ].
Proof.
  destruct (empty_page_ends_session page_then_empty books_url 50 2
              (document [elt "p" [] [NavigableString (lit "No results")]]))
    as [_ (t & -> & _)].
  - lia.
  - intros k Hk. assert (k = 1) as -> by lia. vm_compute. eauto.
  - reflexivity.
  - reflexivity.
  - vm_compute. reflexivity.
Defined.

(** The first scenario of the specification, run: one page of two
    books, then a page without any. *)
Example two_books_then_empty_page :
  BookScraper.scrape_books page_then_empty books_url 50 =
    (Return [ {| BookScraper.title := lit "A Light in the Attic";
                 BookScraper.price := binary64 (5177 # 100); BookScraper.rating := 3 |};
              {| BookScraper.title := lit "Tipping the Velvet";
                 BookScraper.price := binary64 (2687 # 50); BookScraper.rating := 1 |} ],
     [Print (Scraping_page 1); Get books_url; Print (Found_books 2 1);
      Print (Scraping_page 2); Get (books_url ++ lit "/catalogue/page-2.html");
      Print (No_books_found 2)]).
Proof. vm_compute. reflexivity. Qed.

Lemma scrape_element_run base_url i el acc :
  exists t,
    gets t = [] /\
    DurexScraper.scrape_element base_url (i, el) acc =
      (Return Continue,
       if DurexScraper.emitted (DurexScraper.extract_product base_url el)
       then acc ++ [DurexScraper.row_of (DurexScraper.extract_product base_url el)]
       else acc,
       t).
Proof.
  unfold DurexScraper.scrape_element.
  destruct (DurexScraper.emitted _), (i <=? 5), (i mod 10 =? 0);
    (eexists; split; cycle 1; [reflexivity|reflexivity]).
Qed.

(** The product scraper's loop appends the row of each element that
    passes the test of line 88, and raises nothing. *)
Lemma scrape_elements_run base_url els i acc :
  exists t,
    gets t = [] /\
    for_each (enumerate i els) (DurexScraper.scrape_element base_url) acc =
      (Return tt,
       acc ++ List.map DurexScraper.row_of
                (List.filter DurexScraper.emitted
                   (List.map (DurexScraper.extract_product base_url) els)),
       t).
Proof.
  revert i acc. induction els as [|el els IH]; intros i acc.
  - exists []. by rewrite List.app_nil_r.
  - cbn [enumerate List.map List.filter]. rewrite for_each_cons.
    destruct (scrape_element_run base_url i el acc) as (t1 & Hg1 & ->).
    destruct (IH (i + 1) (if DurexScraper.emitted (DurexScraper.extract_product base_url el)
                          then acc ++ [DurexScraper.row_of
                                         (DurexScraper.extract_product base_url el)]
                          else acc)) as (t & Hg & ->).
    exists (t1 ++ t). split; [by rewrite gets_app, Hg1, Hg|].
    destruct (DurexScraper.emitted _); [|done].
    by rewrite <- List.app_assoc.
Qed.

Lemma scrape_products_run w base_url :
  exists t,
    gets t = [base_url] /\
    DurexScraper.scrape_products w base_url =
      (Return
         match w base_url with
         | inl _ => []
         | inr soup =>
             List.map DurexScraper.row_of
               (List.filter DurexScraper.emitted
                  (List.map (DurexScraper.extract_product base_url)
                     (DurexScraper.product_elements_of soup)))
         end, t).
Proof.
  unfold DurexScraper.scrape_products, DurexScraper.scrape_products_from,
    DurexScraper.get_page_content, try_except, requests_get.
  unfold bind at 1 2 3 4 5. unfold print at 1, emit at 1 2.
  destruct (w base_url) as [e|soup]; cbn.
  - eexists. split; cycle 1; reflexivity.
  - unfold bind at 1.
    destruct (scrape_elements_run base_url (DurexScraper.product_elements_of soup) 1 [])
      as (t & Hg & ->).
    unfold read. eexists. split; cycle 1; [reflexivity|].
    unfold gets in *. cbn [flat_map app]. by rewrite List.app_nil_r, Hg.
Qed.

Lemma scrape_books2_run w url :
  BookScraper2.scrape_books w url =
    match w url with
    | inl e => (Raise (RequestException e), [Get url])
    | inr soup =>
        (traverse BookScraper2.extract_book
           (find_all (TagNamed (lit "article")) [ClassIs (lit "product_pod")] soup),
         [Get url])
    end.
Proof.
  unfold BookScraper2.scrape_books, BookScraper2.scrape_books_from, requests_get.
  unfold bind at 1 2. unfold emit at 1.
  destruct (w url) as [e|soup]; [done|].
  unfold ret at 1. unfold bind at 1. rewrite for_each_append.
  destruct (traverse _ _) as [rows|e] eqn:E; [|done].
  unfold read. by rewrite (traverse_returned _ _ _ E).
Qed.

(** C3. The pages fetched by a session of [book_scraper.py] are the
    first pages of [1 .. max_pages], in order and once each, so never
    more than [max_pages] of them, whatever the site serves and whether
    the scrape returns or raises; with [max_pages = 1] exactly one GET
    is issued, of the base URL, whatever the first page holds. The two
    other scrapers issue one GET. *)
Theorem pages_visited_bounded (w : web) (url : str) (max_pages : Z) :
  gets (BookScraper.scrape_books w url max_pages).2
    `prefix_of` List.map (BookScraper.page_url url) (range 1 (max_pages + 1)) /\
  Z.of_nat (List.length (gets (BookScraper.scrape_books w url max_pages).2))
    <= Z.max 0 max_pages /\
  gets (BookScraper.scrape_books w url 1).2 = [url] /\
  gets (BookScraper2.scrape_books w url).2 = [url] /\
  gets (DurexScraper.scrape_products w url).2 = [url].
Proof.
  assert (Hpre : forall m,
    gets (BookScraper.scrape_books w url m).2
      `prefix_of` List.map (BookScraper.page_url url) (range 1 (m + 1))).
  { intros m. rewrite scrape_books_run.
    pose proof (loop_gets_prefix w url (range 1 (m + 1)) []) as H.
    by destruct (for_each _ _ []) as [[r s] t]. }
  split_and!; [apply Hpre|..].
  - pose proof (prefix_length _ _ (Hpre max_pages)) as Hl.
    rewrite length_map, range_length in Hl. lia.
  - rewrite scrape_books_run. change (range 1 (1 + 1)) with [1].
    rewrite for_each_cons, scrape_page_run. cbv zeta. rewrite page_url_first.
    destruct (w url) as [e|soup]; [done|].
    destruct (BookScraper.book_containers_of soup) as [|c cs]; [done|].
    by destruct (traverse BookScraper.extract_book (c :: cs)).
  - rewrite scrape_books2_run. by destruct (w url).
  - by destruct (scrape_products_run w url) as (t & Hg & ->).
Qed.

Lemma scrape_books_first_page_raises w url soup e max_pages :
  1 <= max_pages -> w url = inr soup ->
  traverse BookScraper.extract_book (BookScraper.book_containers_of soup) = Raise e ->
  BookScraper.scrape_books w url max_pages =
    (Raise e, [Print (Scraping_page 1); Get url]).
Proof.
  intros Hm Hw He.
  rewrite scrape_books_run, (range_cons 1) by lia.
  rewrite for_each_cons, scrape_page_run. cbv zeta.
  rewrite page_url_first, Hw.
  destruct (BookScraper.book_containers_of soup) as [|c cs]; [done|].
  by rewrite He.
Qed.

End Sessions.

(* ===================================================================== *)
(** * Prices in a scrape *)
(* ===================================================================== *)

Section ScrapedPrices.

Lemma replace_filter (c : N) (s : str) :
  replace [c] [] s = List.filter (fun a => negb (c =? a)%N) s.
Proof.
  unfold replace. induction s as [|a s IH]; [done|].
  cbn [replace_from startswith List.filter]. rewrite andb_true_r.
  destruct (c =? a)%N; cbn [negb app Nat.pred List.length]; by rewrite IH.
Qed.

Lemma replace_char_app (c : N) (s t : str) :
  replace [c] [] (s ++ t) = replace [c] [] s ++ replace [c] [] t.
Proof. rewrite !replace_filter. apply List.filter_app. Qed.

Lemma replace_blank (c : N) (ws : str) :
  isspace c = false -> blank ws -> replace [c] [] ws = ws.
Proof.
  intros Hc Hws. apply replace_absent.
  eapply Forall_impl; [exact Hws|]. intros a Ha ->. congruence.
Qed.

Lemma lstrip_by_blank (drop : N -> bool) (ws s : str) :
  Forall (fun c => drop c = true) ws -> lstrip_by drop (ws ++ s) = lstrip_by drop s.
Proof. induction 1 as [|c ws Hc _ IH]; [done|]. simpl. by rewrite Hc. Qed.

Lemma rstrip_by_blank (drop : N -> bool) (s ws : str) :
  Forall (fun c => drop c = true) ws -> rstrip_by drop (s ++ ws) = rstrip_by drop s.
Proof.
  intros H. unfold rstrip_by. rewrite List.rev_app_distr, lstrip_by_blank; [done|].
  by apply List.Forall_rev.
Qed.

(** [strip] takes the white space off both ends of a text without any. *)
Lemma strip_padded (ws1 s ws2 : str) :
  blank ws1 -> blank ws2 -> Forall (fun c => isspace c = false) s ->
  strip (ws1 ++ s ++ ws2) = s.
Proof.
  intros H1 H2 Hs. unfold strip. rewrite lstrip_by_blank by done.
  destruct Hs as [|c s Hc Hs].
  - cbn [app]. rewrite <- (List.app_nil_r ws2), lstrip_by_blank by done. done.
  - cbn [app lstrip_by]. rewrite Hc.
    change (c :: s ++ ws2) with ((c :: s) ++ ws2). rewrite rstrip_by_blank by done.
    apply rstrip_by_id. destruct (last (c :: s)) as [d|] eqn:E; [|done].
    apply last_Some_elem_of in E. cbn [from_option].
    assert (Forall (fun c => isspace c = false) (c :: s)) as Hall by by constructor.
    by apply (proj1 (Forall_forall _ _) Hall).
Qed.

Lemma decimal_text_solid ip fp :
  Forall (fun d => d < 10)%N ip -> Forall (fun d => d < 10)%N fp ->
  Forall (fun c => isspace c = false) (decimal_text ip fp).
Proof.
  intros Hip Hfp. eapply Forall_impl; [by apply decimal_text_chars|].
  apply decimal_char_not_space.
Qed.

(** What [book_scraper.py] hands to [float]: the pound signs are taken
    out of the trimmed text. *)
Lemma price_text_of_decimal ip fp ws1 ws2 :
  Forall (fun d => d < 10)%N ip -> Forall (fun d => d < 10)%N fp ->
  blank ws1 -> blank ws2 ->
  replace pound [] (strip (ws1 ++ pound ++ decimal_text ip fp ++ ws2)) =
    decimal_text ip fp /\
  replace pound [] (strip (ws1 ++ a_circumflex ++ pound ++ decimal_text ip fp ++ ws2)) =
    a_circumflex ++ decimal_text ip fp.
Proof.
  intros Hip Hfp H1 H2. pose proof (decimal_text_chars ip fp Hip Hfp) as Hs.
  pose proof (decimal_text_solid ip fp Hip Hfp) as Hsolid.
  assert (replace [163%N] [] (decimal_text ip fp) = decimal_text ip fp) as Hd.
  { apply replace_absent. by apply decimal_chars_without; [apply pound_not_decimal|]. }
  split.
  - rewrite (List.app_assoc pound), strip_padded; [|done|done|by constructor].
    unfold pound. by rewrite replace_char_app, Hd.
  - rewrite (List.app_assoc pound), (List.app_assoc a_circumflex), strip_padded;
      [|done|done|by repeat constructor].
    unfold pound, a_circumflex. by rewrite !replace_char_app, Hd.
Qed.

(** What [book_scraper2.py] hands to [float]. *)
Lemma cleaned_price_of_decimal ip fp ws1 ws2 :
  Forall (fun d => d < 10)%N ip -> Forall (fun d => d < 10)%N fp ->
  blank ws1 -> blank ws2 ->
  BookScraper2.cleaned_price_of (ws1 ++ pound ++ decimal_text ip fp ++ ws2) =
    decimal_text ip fp /\
  BookScraper2.cleaned_price_of (ws1 ++ a_circumflex ++ pound ++ decimal_text ip fp ++ ws2) =
    decimal_text ip fp.
Proof.
  intros Hip Hfp H1 H2. pose proof (decimal_text_chars ip fp Hip Hfp) as Hs.
  pose proof (decimal_text_solid ip fp Hip Hfp) as Hsolid.
  assert (replace [163%N] [] (decimal_text ip fp) = decimal_text ip fp) as Hd.
  { apply replace_absent. by apply decimal_chars_without; [apply pound_not_decimal|]. }
  assert (replace [194%N] [] (decimal_text ip fp) = decimal_text ip fp) as Ha.
  { apply replace_absent. by apply decimal_chars_without; [apply a_circumflex_not_decimal|]. }
  unfold BookScraper2.cleaned_price_of, pound, a_circumflex.
  rewrite !replace_char_app, Ha, Hd.
  rewrite (replace_blank 194 ws1), (replace_blank 194 ws2),
    (replace_blank 163 ws1), (replace_blank 163 ws2) by done.
  change (replace [163%N] [] (replace [194%N] [] [163%N])) with (@nil N).
  change (replace [163%N] [] (replace [194%N] [] [194%N])) with (@nil N).
  cbn [app]. by rewrite strip_padded.
Qed.

Lemma float_artifact (s : str) : float (a_circumflex ++ s) = Raise ValueError.
Proof. reflexivity. Qed.

Lemma round_half_even_nonneg (q : Q) : (0 <= q)%Q -> 0 <= round_half_even q.
Proof.
  intros H. unfold round_half_even. cbv zeta.
  assert (0 <= Qnum q) as Hn. { unfold Qle in H. simpl in H. lia. }
  assert (0 <= Qnum q / Z.pos (Qden q)) as Hf by (apply Z.div_pos; lia).
  destruct (_ ?= _); [destruct (Z.even _)|..]; lia.
Qed.

(** Rounding keeps the sign: the binary64 of a number that is not
    negative is not negative. *)
Lemma binary64_nonneg (q : Q) : (0 <= q)%Q -> nonneg_float (binary64 q).
Proof.
  intros H. unfold binary64. cbv zeta.
  rewrite (proj2 (Qle_bool_iff 0 q) H). cbn [negb].
  destruct (Qeq_bool q 0); [apply Qle_refl|].
  destruct (Qle_bool _ _); [done|]. cbn [nonneg_float]. rewrite Qred_correct.
  apply Qmult_le_0_compat; [|by apply Qpower_0_le].
  change 0%Q with (inject_Z 0). rewrite <- Zle_Qle. apply round_half_even_nonneg.
  apply Qmult_le_0_compat; [done|]. apply Qinv_le_0_compat. by apply Qpower_0_le.
Qed.

(** C1, the claim as stated fails: a price text that is no number makes
    the scrape raise [ValueError] (no failure indicator is returned and
    no 0 is substituted: the rows of the page are lost), and a signed
    text gives a negative price. *)
Lemma non_numeric_price_raises :
  BookScraper.price_of_text (pound ++ lit "TBC") = Raise ValueError /\
  float (BookScraper2.cleaned_price_of (pound ++ lit "TBC")) = Raise ValueError /\
  BookScraper.scrape_books page_with_bad_price books_url 50 =
    (Raise ValueError, [Print (Scraping_page 1); Get books_url]) /\
  BookScraper2.scrape_books page_with_bad_price books_url =
    (Raise ValueError, [Get books_url]) /\
  BookScraper.price_of_text (pound ++ lit "-5.00") = Return (F_num (-5 # 1)).
Proof. vm_compute. repeat split. Qed.

(** C1, amended. The text of a price is trimmed and its pound signs
    removed ([book_scraper2.py] also removes the stray [Â] before the
    sign, [book_scraper.py] does not and raises on it), and what is left
    is parsed by [float]: a pound sign followed by an unsigned decimal,
    white space around them or not, gives the binary64 nearest to that
    decimal, the infinity past the range, and that is not negative.
    When [float] rejects what is left, the container raises
    [ValueError] and so does the scrape: nothing is returned in its
    place. When the container has no price node the price is 0. *)
Theorem price_normalization (ip fp : list N) (ws1 ws2 : str) :
  Forall (fun d => d < 10)%N ip -> Forall (fun d => d < 10)%N fp -> ip <> [] ->
  blank ws1 -> blank ws2 ->
  BookScraper.price_of_text (ws1 ++ pound ++ decimal_text ip fp ++ ws2) =
    Return (binary64 (decimal_value ip fp)) /\
  float (BookScraper2.cleaned_price_of (ws1 ++ pound ++ decimal_text ip fp ++ ws2)) =
    Return (binary64 (decimal_value ip fp)) /\
  float (BookScraper2.cleaned_price_of
           (ws1 ++ a_circumflex ++ pound ++ decimal_text ip fp ++ ws2)) =
    Return (binary64 (decimal_value ip fp)) /\
  BookScraper.price_of_text (ws1 ++ a_circumflex ++ pound ++ decimal_text ip fp ++ ws2) =
    Raise ValueError /\
  nonneg_float (binary64 (decimal_value ip fp)) /\
  (forall book title,
     BookScraper.title_of book = Return title ->
     BookScraper.price_of book = Raise ValueError ->
     BookScraper.extract_book book = Raise ValueError) /\
  (forall book title,
     BookScraper2.title_of book = Return title ->
     float (BookScraper2.cleaned_price book) = Raise ValueError ->
     BookScraper2.extract_book book = Raise ValueError) /\
  (forall raw e, BookScraper.price_of_text raw = Raise e -> e = ValueError) /\
  (forall book,
     find (TagNamed (lit "p")) [ClassIs (lit "price_color")] book = None ->
     BookScraper.price_of book = Return (F_num 0) /\
     float (BookScraper2.cleaned_price book) = Return (F_num 0)) /\
  (forall w url soup e max_pages,
     1 <= max_pages -> w url = inr soup ->
     traverse BookScraper.extract_book (BookScraper.book_containers_of soup) = Raise e ->
     BookScraper.scrape_books w url max_pages =
       (Raise e, [Print (Scraping_page 1); Get url])) /\
  (forall w url soup,
     w url = inr soup ->
     BookScraper2.scrape_books w url =
       (traverse BookScraper2.extract_book
          (find_all (TagNamed (lit "article")) [ClassIs (lit "product_pod")] soup),
        [Get url])).
Proof.
  intros Hip Hfp Hne H1 H2.
  destruct (cleaned_price_of_decimal ip fp ws1 ws2 Hip Hfp H1 H2) as [-> ->].
  destruct (price_text_of_decimal ip fp ws1 ws2 Hip Hfp H1 H2) as [Hp Ha].
  unfold BookScraper.price_of_text. cbv zeta. rewrite Hp, Ha.
  split_and!.
  - by apply float_decimal.
  - by apply float_decimal.
  - by apply float_decimal.
  - apply float_artifact.
  - apply binary64_nonneg, decimal_value_nonneg.
  - intros book title Ht Hb. unfold BookScraper.extract_book. by rewrite Ht, Hb.
  - intros book title Ht Hb. unfold BookScraper2.extract_book. by rewrite Ht, Hb.
  - intros raw e. apply float_raises.
  - intros book Hb. unfold BookScraper.price_of, BookScraper2.cleaned_price.
    cbv zeta. rewrite Hb. split; [done|by vm_compute].
  - intros w url soup e max_pages. apply scrape_books_first_page_raises.
  - intros w url soup Hw. by rewrite scrape_books2_run, Hw.
Qed.

Lemma price_normalization_witness :
  BookScraper.price_of_text (lit " " ++ pound ++ lit "51.77" ++ newline) =
    Return (binary64 (5177 # 100)) /\
  float (BookScraper2.cleaned_price_of
           (lit " " ++ a_circumflex ++ pound ++ lit "51.77" ++ newline)) =
    Return (binary64 (5177 # 100)) /\
  nonneg_float (binary64 (5177 # 100)).
Proof.
  destruct (price_normalization [5; 1]%N [7; 7]%N (lit " ") newline)
    as (H1 & _ & H3 & _ & H5 & _).
  - repeat constructor.
  - repeat constructor.
  - discriminate.
  - repeat constructor.
  - repeat constructor.
  - split_and!; [exact H1|exact H3|exact H5].
Defined.

End ScrapedPrices.

(* ===================================================================== *)
(** * Records *)
(* ===================================================================== *)

Section Records.

Lemma slice_not_sentinel (n : nat) (d : str) :
  (3 < n)%nat -> d <> NA -> slice_to n d <> NA.
Proof.
  intros Hn Hd. unfold slice_to.
  destruct (Nat.le_gt_cases (List.length d) n) as [Hle|Hgt].
  - by rewrite firstn_all2.
  - intros H. apply (f_equal (@List.length N)) in H.
    rewrite length_firstn in H. change (List.length NA) with 3%nat in H. lia.
Qed.

Lemma emitted_iff (p : DurexScraper.product) :
  DurexScraper.emitted p = true <->
  DurexScraper.title p <> NA \/ DurexScraper.description p <> NA.
Proof.
  unfold DurexScraper.emitted, str_eqb.
  rewrite orb_true_iff, !negb_true_iff, !bool_decide_eq_false. tauto.
Qed.

Lemma row_of_emitted (p : DurexScraper.product) :
  DurexScraper.emitted p = true ->
  DurexScraper.title (DurexScraper.row_of p) <> NA \/
  DurexScraper.description (DurexScraper.row_of p) <> NA.
Proof.
  intros H. apply emitted_iff in H as [H|H]; [by left|right].
  unfold DurexScraper.row_of, str_eqb. cbn [DurexScraper.description].
  rewrite bool_decide_eq_false_2 by done. cbn [negb].
  apply slice_not_sentinel; [lia|done].
Qed.

(** C8, the claim as stated fails: the book scraper appends a row for a
    container that yields the sentinel title, and it has no description
    at all. *)
Lemma sentinel_title_row_is_emitted :
  BookScraper.scrape_books page_without_title books_url 1 =
    (Return [ {| BookScraper.title := NA; BookScraper.price := F_num 0;
                 BookScraper.rating := 0 |} ],
     [Print (Scraping_page 1); Get books_url; Print (Found_books 1 1)]).
Proof. vm_compute. reflexivity. Qed.

(** C8, amended. Every row has a title, a [str] by construction, the
    sentinel allowed. In the product scraper the rows are those of the
    elements whose title is not the sentinel or whose description is
    not: each row has one of the two, and an element with neither gives
    no row. The book scrapers append one row for each container that is
    extracted without an exception, whatever its title. *)
Theorem record_emission (w : web) (base_url : str) (soup : node) :
  w base_url = inr soup ->
  (DurexScraper.scrape_products w base_url).1 =
    Return (List.map DurexScraper.row_of
              (List.filter DurexScraper.emitted
                 (List.map (DurexScraper.extract_product base_url)
                    (DurexScraper.product_elements_of soup)))) /\
  (forall rows r,
     (DurexScraper.scrape_products w base_url).1 = Return rows -> r ∈ rows ->
     DurexScraper.title r <> NA \/ DurexScraper.description r <> NA) /\
  (forall p,
     DurexScraper.emitted p = true <->
     DurexScraper.title p <> NA \/ DurexScraper.description p <> NA) /\
  (forall cs rows,
     traverse BookScraper.extract_book cs = Return rows ->
     List.length rows = List.length cs) /\
  (forall cs rows,
     traverse BookScraper2.extract_book cs = Return rows ->
     List.length rows = List.length cs).
Proof.
  intros Hw.
  destruct (scrape_products_run w base_url) as (t & _ & Hrun).
  rewrite Hw in Hrun. rewrite Hrun. cbn [fst].
  split_and!; [done|..].
  - intros rows r [= <-] Hr.
    apply list_elem_of_In, List.in_map_iff in Hr as (p & <- & Hp).
    apply List.filter_In in Hp as [_ Hp]. by apply row_of_emitted.
  - apply emitted_iff.
  - apply traverse_length.
  - apply traverse_length.
Qed.

Lemma record_emission_witness :
  (DurexScraper.scrape_products three_cards durex_url).1 =
    Return [ {| DurexScraper.title := lit "Thin Feel";
                DurexScraper.description := lit "Thinner for more feeling";
                DurexScraper.category := NA;
                DurexScraper.link := lit "https://www.durex.co.uk/products/thin-feel" |};
             {| DurexScraper.title := NA;
                DurexScraper.description := lit "Free delivery";
                DurexScraper.category := NA;
                DurexScraper.link := NA |} ].
Proof.
  destruct (record_emission three_cards durex_url three_cards_page) as (-> & _).
  - reflexivity.
  - vm_compute. reflexivity.
Defined.

Lemma head_filter_None {A} (P Q : A -> bool) (l : list A) :
  (forall x, Q x = true -> P x = true) ->
  head (List.filter P l) = None -> head (List.filter Q l) = None.
Proof.
  intros HPQ. induction l as [|x l IH]; [done|]. simpl.
  destruct (P x) eqn:HP; [done|]. destruct (Q x) eqn:HQ; [|done].
  apply HPQ in HQ. congruence.
Qed.

Lemma find_more_filters nf f afs n :
  find nf afs n = None -> find nf (f :: afs) n = None.
Proof.
  unfold find, find_all. apply head_filter_None.
  intros [name classes attrs children|t]; [|done]. cbn [search_tag forallb].
  intros [H1 [_ H2]%andb_true_iff]%andb_true_iff. by rewrite H1, H2.
Qed.

Lemma traverse_all_return {A B} (f : A -> result B) (xs : list A) :
  Forall (fun x => exists b, f x = Return b) xs ->
  exists bs, traverse f xs = Return bs /\ List.length bs = List.length xs.
Proof.
  induction 1 as [|x xs [b Hb] _ (bs & Hbs & Hl)]; [by exists []|].
  exists (b :: bs). simpl. by rewrite Hb, Hbs, Hl.
Qed.

(** C2, the claim as stated fails: the price of the first container of
    the page is a word, [float] raises [ValueError], no handler catches
    it and the scrape ends there; the second container is never
    extracted. *)
Lemma price_failure_aborts_scrape :
  BookScraper.price_of (product_pod (lit "A Light in the Attic") (lit "Free") "Three") =
    Raise ValueError /\
  BookScraper.extract_book
    (product_pod (lit "Tipping the Velvet") (pound ++ lit "53.74") "One") =
    Return {| BookScraper.title := lit "Tipping the Velvet";
              BookScraper.price := binary64 (2687 # 50); BookScraper.rating := 1 |} /\
  BookScraper.scrape_books page_with_free_book books_url 50 =
    (Raise ValueError, [Print (Scraping_page 1); Get books_url]) /\
  BookScraper2.scrape_books page_with_free_book books_url =
    (Raise ValueError, [Get books_url]).
Proof. vm_compute. repeat split. Qed.

(** C2, amended. In the product scraper the absence of the node of a
    field leaves the sentinel in that field, and the scrape never
    raises: every element of the page is read, whatever the others
    lack. In the book scrapers, for a container whose title anchor is
    found: a missing title attribute gives the sentinel, a missing price
    node the price 0, a missing rating node or a class list of fewer
    than two entries the rating 0, and the row is built from the fields
    whatever their defaults; containers all of whose fields are read
    each give their row. The one exception raised on such a container is
    the [ValueError] of a price text that [float] rejects. *)
Theorem partial_record_tolerance (w : web) (base_url : str) (element book : node) :
  (exists t,
     DurexScraper.scrape_products w base_url =
       (Return
          match w base_url with
          | inl _ => []
          | inr soup =>
              List.map DurexScraper.row_of
                (List.filter DurexScraper.emitted
                   (List.map (DurexScraper.extract_product base_url)
                      (DurexScraper.product_elements_of soup)))
          end, t)) /\
  (find DurexScraper.headings [] element = None ->
     DurexScraper.title (DurexScraper.extract_product base_url element) = NA) /\
  (find (TagIn [lit "p"; lit "div"])
        [ClassSat (DurexScraper.has_keyword [lit "description"; lit "desc"; lit "summary"])]
        element = None ->
     DurexScraper.description (DurexScraper.extract_product base_url element) = NA) /\
  (find (TagNamed (lit "a")) [AttrPresent (lit "href")] element = None ->
     DurexScraper.link (DurexScraper.extract_product base_url element) = NA) /\
  (find AnyTag [ClassSat (DurexScraper.has_keyword [lit "category"])] element = None ->
     DurexScraper.category (DurexScraper.extract_product base_url element) = NA) /\
  (forall h a,
     find (TagNamed (lit "h3")) [] book = Some h ->
     find (TagNamed (lit "a")) [] h = Some a ->
     BookScraper.title_of book = Return (get (lit "title") NA a) /\
     BookScraper2.title_of book = Return (strip (get (lit "title") NA a))) /\
  (forall name classes attrs children,
     attrs !! lit "title" = None ->
     get (lit "title") NA (Tag name classes attrs children) = NA) /\
  (find (TagNamed (lit "p")) [ClassIs (lit "price_color")] book = None ->
     BookScraper.price_of book = Return (F_num 0) /\
     float (BookScraper2.cleaned_price book) = Return (F_num 0)) /\
  (find (TagNamed (lit "p")) [ClassIs (lit "star-rating")] book = None ->
     BookScraper.rating_of book = 0 /\ BookScraper2.rating_of book = 0) /\
  (forall c,
     BookScraper.rating_of_class [] = 0 /\ BookScraper.rating_of_class [c] = 0 /\
     BookScraper2.rating_of_classes [] = 0 /\ BookScraper2.rating_of_classes [c] = 0) /\
  (forall title price,
     BookScraper.title_of book = Return title ->
     BookScraper.price_of book = Return price ->
     BookScraper.extract_book book =
       Return {| BookScraper.title := title; BookScraper.price := price;
                 BookScraper.rating := BookScraper.rating_of book |}) /\
  (forall title e,
     BookScraper.title_of book = Return title ->
     BookScraper.price_of book = Raise e ->
     e = ValueError /\ BookScraper.extract_book book = Raise ValueError) /\
  (forall cs,
     Forall (fun c => exists title price,
                        BookScraper.title_of c = Return title /\
                        BookScraper.price_of c = Return price) cs ->
     exists rows,
       traverse BookScraper.extract_book cs = Return rows /\
       List.length rows = List.length cs).
Proof.
  split_and!.
  - destruct (scrape_products_run w base_url) as (t & _ & ->). by eexists.
  - intros H. unfold DurexScraper.extract_product. cbv zeta.
    cbn [DurexScraper.title]. by rewrite (find_more_filters _ _ _ _ H), H.
  - intros H. unfold DurexScraper.extract_product. cbv zeta.
    cbn [DurexScraper.description]. by rewrite H.
  - intros H. unfold DurexScraper.extract_product. cbv zeta.
    cbn [DurexScraper.link]. by rewrite H.
  - intros H. unfold DurexScraper.extract_product. cbv zeta.
    cbn [DurexScraper.category]. by rewrite H.
  - intros h a Hh Ha. unfold BookScraper.title_of, BookScraper2.title_of, on_found.
    by rewrite Hh, Ha.
  - intros name classes attrs children H. unfold get. by rewrite H.
  - intros H. unfold BookScraper.price_of, BookScraper2.cleaned_price. cbv zeta.
    rewrite H. split; [done|by vm_compute].
  - intros H. unfold BookScraper.rating_of, BookScraper2.rating_of. cbv zeta.
    by rewrite H.
  - done.
  - intros title price Ht Hp. unfold BookScraper.extract_book. by rewrite Ht, Hp.
  - intros title e Ht Hp. pose proof (book_price_raises _ _ Hp) as ->.
    split; [done|]. unfold BookScraper.extract_book. by rewrite Ht, Hp.
  - intros cs Hcs. apply traverse_all_return.
    eapply Forall_impl; [exact Hcs|]. intros c (title & price & Ht & Hp).
    eexists. unfold BookScraper.extract_book. by rewrite Ht, Hp.
Qed.

Lemma partial_record_tolerance_witness :
  BookScraper.extract_book pod_without_title =
    Return {| BookScraper.title := NA; BookScraper.price := F_num 0;
              BookScraper.rating := 0 |}.
Proof.
  destruct (partial_record_tolerance page_without_title books_url
              pod_without_title pod_without_title)
    as (_ & _ & _ & _ & _ & _ & _ & Hprice & Hrating & _ & Hrow & _).
  rewrite (Hrow NA (F_num 0)).
  - by rewrite (proj1 (Hrating eq_refl)).
  - reflexivity.
  - exact (proj1 (Hprice eq_refl)).
Defined.

(** A container without [h3], the case the statement above leaves out:
    its price and rating are read, its title raises [AttributeError],
    which the handler for [RequestException] does not catch, and the
    scrape ends there, the row of the first container lost. The product
    scraper gives such an element the sentinel title. *)
Lemma missing_title_node_aborts_scrape :
  BookScraper.price_of pod_without_h3 = Return (binary64 (2687 # 50)) /\
  BookScraper.rating_of pod_without_h3 = 0 /\
  BookScraper.title_of pod_without_h3 = Raise AttributeError /\
  BookScraper.scrape_books page_without_h3 books_url 50 =
    (Raise AttributeError, [Print (Scraping_page 1); Get books_url]) /\
  BookScraper2.scrape_books page_without_h3 books_url =
    (Raise AttributeError, [Get books_url]) /\
  DurexScraper.title (DurexScraper.extract_product books_url pod_without_h3) = NA.
Proof. vm_compute. repeat split. Qed.

End Records.

(* ===================================================================== *)
(** * What a session of the book scraper returns *)
(* ===================================================================== *)

Section SessionResults.

Lemma page_rows_good w url p rows :
  page_rows w url p = Some rows ->
  exists soup,
    w (BookScraper.page_url url p) = inr soup /\
    BookScraper.book_containers_of soup <> [] /\
    traverse BookScraper.extract_book (BookScraper.book_containers_of soup) = Return rows.
Proof.
  unfold page_rows. destruct (w _) as [e|soup]; [done|].
  destruct (BookScraper.book_containers_of soup) as [|c cs] eqn:E; [done|].
  destruct (traverse _ _) as [rows'|] eqn:Et; [|done].
  intros [= <-]. exists soup. by rewrite E.
Qed.

(** The loop over the pages, when it ends without an exception: it has
    gone through a run of pages that were all served, non-empty and
    extracted, and stopped at the end of the list or at a page that
    stops it. *)
Lemma loop_returns w url ps bs s t :
  for_each ps (BookScraper.scrape_page w url) bs = (Return tt, s, t) ->
  exists ps1 ps2,
    ps = ps1 ++ ps2 /\
    Forall (fun p => is_Some (page_rows w url p)) ps1 /\
    s = bs ++ rows_of_pages w url ps1 /\
    match ps2 with
    | [] => True
    | p :: _ => page_stops w url p
    end.
Proof.
  revert bs s t. induction ps as [|p ps IH]; intros bs s t.
  - unfold for_each, ret. intros [= <- _]. exists [], [].
    change (rows_of_pages w url []) with (@nil BookScraper.book_row).
    split_and!; [done|constructor|by rewrite List.app_nil_r|done].
  - rewrite for_each_cons, scrape_page_run. cbv zeta.
    destruct (w (BookScraper.page_url url p)) as [e|soup] eqn:Ew.
    { intros [= <- _]. exists [], (p :: ps).
      change (rows_of_pages w url []) with (@nil BookScraper.book_row).
      split_and!; [done|constructor|by rewrite List.app_nil_r|].
      unfold page_stops. by rewrite Ew. }
    destruct (BookScraper.book_containers_of soup) as [|c cs] eqn:Ecs.
    { intros [= <- _]. exists [], (p :: ps).
      change (rows_of_pages w url []) with (@nil BookScraper.book_row).
      split_and!; [done|constructor|by rewrite List.app_nil_r|].
      unfold page_stops. by rewrite Ew. }
    destruct (traverse BookScraper.extract_book (c :: cs)) as [rows|e] eqn:Et; [|done].
    rewrite (traverse_returned _ _ _ Et).
    destruct (for_each ps _ _) as [[r s2] t2] eqn:Eloop.
    intros [= -> <- _].
    destruct (IH _ _ _ Eloop) as (ps1 & ps2 & -> & Hgood & -> & Hstop).
    assert (page_rows w url p = Some rows) as Hp.
    { unfold page_rows. by rewrite Ew, Ecs, Et. }
    exists (p :: ps1), ps2. split_and!; [done| | |done].
    + constructor; [by rewrite Hp|done].
    + unfold rows_of_pages. cbn [flat_map]. rewrite Hp. cbn [default from_option id].
      by rewrite List.app_assoc.
Qed.

Lemma loop_raises w url ps bs e s t :
  for_each ps (BookScraper.scrape_page w url) bs = (Raise e, s, t) ->
  extraction_error e.
Proof.
  revert bs s t. induction ps as [|p ps IH]; intros bs s t; [done|].
  rewrite for_each_cons, scrape_page_run. cbv zeta.
  destruct (w (BookScraper.page_url url p)) as [e'|soup]; [done|].
  destruct (BookScraper.book_containers_of soup) as [|c cs]; [done|].
  destruct (traverse BookScraper.extract_book (c :: cs)) as [rows|e'] eqn:Et.
  - destruct (for_each ps _ _) as [[r s2] t2] eqn:Eloop.
    intros [= -> _ _]. by eapply IH.
  - intros [= <- _ _]. revert Et. apply traverse_raises. apply extract_book_raises.
Qed.

Lemma range_prefix a b ps1 ps2 :
  range a b = ps1 ++ ps2 -> ps1 = range a (a + Z.of_nat (List.length ps1)).
Proof.
  revert a. induction ps1 as [|p ps1 IH]; intros a H.
  - by rewrite range_nil by (simpl; lia).
  - destruct (Z.lt_ge_cases a b) as [Hlt|Hge]; [|by rewrite range_nil in H by lia].
    rewrite range_cons in H by done. injection H as <- H.
    rewrite (range_cons a) by (simpl; lia). f_equal.
    rewrite (IH _ H) at 1. f_equal. simpl. lia.
Qed.

Lemma session_returns w url max_pages rows :
  (BookScraper.scrape_books w url max_pages).1 = Return rows ->
  exists k,
    0 <= k <= Z.max 0 max_pages /\
    Forall (fun p => is_Some (page_rows w url p)) (range 1 (k + 1)) /\
    rows = rows_of_pages w url (range 1 (k + 1)) /\
    (k < max_pages -> page_stops w url (k + 1)).
Proof.
  rewrite scrape_books_run.
  destruct (for_each _ _ []) as [[[[]|e] s] t] eqn:Eloop; [|done].
  intros [= <-].
  destruct (loop_returns _ _ _ _ _ _ Eloop) as (ps1 & ps2 & Hps & Hgood & -> & Hstop).
  pose proof (range_prefix _ _ _ _ Hps) as H1.
  pose proof (f_equal (@List.length Z) Hps) as Hlen.
  rewrite range_length, length_app in Hlen.
  exists (Z.of_nat (List.length ps1)).
  replace (Z.of_nat (List.length ps1) + 1) with (1 + Z.of_nat (List.length ps1)) by lia.
  rewrite <- H1. split_and!; [lia|lia|done|done|].
  intros Hk.
  rewrite (range_split 1 (1 + Z.of_nat (List.length ps1)) (max_pages + 1)) in Hps by lia.
  rewrite <- H1 in Hps. apply List.app_inv_head in Hps. by subst ps2.
Qed.

(** X1. Whenever a session of the book scraper returns, its rows are
    those of pages [1 .. k] for some [k] up to [max_pages], page after
    page and in document order within a page; each of those pages was
    served with containers, and unless [k] is [max_pages] the page
    after them is one whose fetch failed or that has no container. *)
Theorem session_rows_are_a_run_of_pages (w : web) (url : str) (max_pages : Z) :
  match (BookScraper.scrape_books w url max_pages).1 with
  | Return rows =>
      exists k,
        0 <= k <= Z.max 0 max_pages /\
        Forall (fun p => is_Some (page_rows w url p)) (range 1 (k + 1)) /\
        rows = rows_of_pages w url (range 1 (k + 1)) /\
        (k < max_pages -> page_stops w url (k + 1))
  | Raise _ => True
  end.
Proof.
  destruct (BookScraper.scrape_books w url max_pages).1 as [rows|e] eqn:E; [|done].
  by apply session_returns.
Qed.

(** X2. No failure of a fetch leaves the book scraper: whatever the
    site answers, [scrape_books] returns or raises one of the two
    exceptions of extraction. [book_scraper2.py] has no handler: its
    [scrape_books] raises the exception of a failed fetch, and no other
    [RequestException]. *)
Theorem fetch_errors_stay_in_the_session (w : web) (url : str) (max_pages : Z) :
  match (BookScraper.scrape_books w url max_pages).1 with
  | Return _ => True
  | Raise e => extraction_error e
  end /\
  match w url with
  | inl e => (BookScraper2.scrape_books w url).1 = Raise (RequestException e)
  | inr _ =>
      match (BookScraper2.scrape_books w url).1 with
      | Return _ => True
      | Raise e => extraction_error e
      end
  end.
Proof.
  split.
  - rewrite scrape_books_run.
    destruct (for_each _ _ []) as [[[[]|e] s] t] eqn:Eloop; [done|].
    by eapply loop_raises.
  - rewrite scrape_books2_run. destruct (w url) as [e|soup]; [done|]. cbn [fst].
    destruct (traverse _ _) as [rows|e] eqn:Et; [done|].
    revert Et. apply traverse_raises. intros book e'.
    unfold BookScraper2.extract_book, BookScraper2.title_of.
    destruct (on_found _ _) as [a|e1] eqn:E1.
    + destruct (on_found a _) as [title|e2] eqn:E2.
      * destruct (float _) eqn:Ef; [done|]. intros [= <-]. right.
        by apply float_raises in Ef.
      * intros [= <-]. left. by apply on_found_raises in E2.
    + intros [= <-]. left. by apply on_found_raises in E1.
Qed.

End SessionResults.

(* ===================================================================== *)
(** * Invariants of the rows *)
(* ===================================================================== *)

Section RowInvariants.

Implicit Types (s : str) (c : N) (drop : N -> bool).

Lemma traverse_Forall {A B} (f : A -> result B) (P : B -> Prop) xs ys :
  (forall x y, f x = Return y -> P y) -> traverse f xs = Return ys -> Forall P ys.
Proof.
  intros Hf. revert ys. induction xs as [|x xs IH]; simpl; intros ys.
  - intros [= <-]. constructor.
  - destruct (f x) as [y|] eqn:E; [|done]. destruct (traverse f xs); [|done].
    intros [= <-]. constructor; eauto.
Qed.

Lemma rows_of_pages_Forall (P : BookScraper.book_row -> Prop) w url ps :
  (forall book row, BookScraper.extract_book book = Return row -> P row) ->
  Forall P (rows_of_pages w url ps).
Proof.
  intros HP. unfold rows_of_pages. induction ps as [|p ps IH]; [constructor|].
  cbn [flat_map]. apply Forall_app. split; [|done].
  destruct (page_rows w url p) as [rows|] eqn:E; [|constructor].
  apply page_rows_good in E as (soup & _ & _ & E). by eapply traverse_Forall.
Qed.

(** Whatever holds of every extracted row holds of the rows of a
    session. *)
Lemma session_rows_Forall (P : BookScraper.book_row -> Prop) w url max_pages rows :
  (forall book row, BookScraper.extract_book book = Return row -> P row) ->
  (BookScraper.scrape_books w url max_pages).1 = Return rows -> Forall P rows.
Proof.
  intros HP (k & _ & _ & -> & _)%session_returns. by apply rows_of_pages_Forall.
Qed.

Lemma rating_map_get_range tok : 0 <= BookScraper.rating_map_get tok 0 <= 5.
Proof.
  unfold BookScraper.rating_map_get. destruct tok as [k|]; [|lia].
  rewrite rating_map_lookup. repeat case_decide; simpl; lia.
Qed.

(** X3. Every row either book scraper returns has a rating from 0 to 5,
    whatever the pages hold. *)
Theorem ratings_in_range (w : web) (url : str) (max_pages : Z) :
  match (BookScraper.scrape_books w url max_pages).1 with
  | Return rows => Forall (fun r => 0 <= BookScraper.rating r <= 5) rows
  | Raise _ => True
  end /\
  match (BookScraper2.scrape_books w url).1 with
  | Return rows => Forall (fun r => 0 <= BookScraper.rating r <= 5) rows
  | Raise _ => True
  end.
Proof.
  split.
  - destruct (BookScraper.scrape_books w url max_pages).1 as [rows|] eqn:E; [|done].
    revert E. apply session_rows_Forall. intros book row.
    unfold BookScraper.extract_book.
    destruct (BookScraper.title_of book); [|done].
    destruct (BookScraper.price_of book); [|done]. intros [= <-]. simpl.
    unfold BookScraper.rating_of. cbv zeta. destruct (find _ _ book); [|lia].
    unfold BookScraper.rating_of_class. cbv zeta. apply rating_map_get_range.
  - rewrite scrape_books2_run. destruct (w url) as [e|soup]; [done|]. cbn [fst].
    destruct (traverse _ _) as [rows|] eqn:E; [|done].
    revert E. apply traverse_Forall. intros book row.
    unfold BookScraper2.extract_book.
    destruct (BookScraper2.title_of book); [|done].
    destruct (float _); [|done]. intros [= <-]. simpl.
    unfold BookScraper2.rating_of, BookScraper2.rating_of_classes. cbv zeta.
    apply (rating_map_get_range _).
Qed.

Lemma rstrip_by_snoc_drop drop s c : drop c = true -> rstrip_by drop (s ++ [c]) = rstrip_by drop s.
Proof.
  intros H. rewrite rstrip_by_app. unfold rstrip_by at 1. simpl. by rewrite H.
Qed.

Lemma rstrip_by_prefix drop s : rstrip_by drop s `prefix_of` s.
Proof.
  induction s as [|c s IH] using rev_ind; [done|].
  destruct (drop c) eqn:E.
  - rewrite rstrip_by_snoc_drop by done. by apply prefix_app_r.
  - by rewrite rstrip_by_snoc.
Qed.

Lemma lstrip_by_suffix drop s : lstrip_by drop s `suffix_of` s.
Proof.
  induction s as [|c s IH]; [done|]. simpl.
  destruct (drop c); [by apply suffix_cons_r|done].
Qed.

Lemma strip_head s c : head (strip s) = Some c -> isspace c = false.
Proof.
  unfold strip. intros H.
  destruct (rstrip_by_prefix isspace (lstrip_by isspace s)) as [v Hv].
  apply (lstrip_by_head isspace s). rewrite Hv.
  by destruct (rstrip_by isspace (lstrip_by isspace s)).
Qed.

Lemma strip_idempotent s : strip (strip s) = strip s.
Proof.
  unfold strip at 1. rewrite lstrip_by_id.
  - apply rstrip_by_id. destruct (last (strip s)) as [c|] eqn:E; [|done].
    by apply rstrip_by_last in E.
  - destruct (head (strip s)) as [c|] eqn:E; [|done]. by apply strip_head in E.
Qed.

Lemma elem_of_strip s c : c ∈ strip s -> c ∈ s.
Proof.
  unfold strip. intros H.
  eapply elem_of_suffix; [|apply (lstrip_by_suffix isspace)].
  eapply elem_of_prefix; [exact H|apply rstrip_by_prefix].
Qed.

Lemma replace_removes c s : c ∉ replace [c] [] s.
Proof.
  rewrite replace_filter. intros [_ H]%list_elem_of_In%List.filter_In.
  by rewrite N.eqb_refl in H.
Qed.

Lemma elem_of_replace c s a : a ∈ replace [c] [] s -> a ∈ s.
Proof.
  rewrite replace_filter. intros [H _]%list_elem_of_In%List.filter_In.
  by apply list_elem_of_In.
Qed.

(** X4. For every text of a price, what [book_scraper2.py] hands to
    [float] holds no pound sign and no [Â], has no white space at
    either end, and cleaning it again changes nothing; what
    [book_scraper.py] hands to [float] holds no pound sign. The titles
    of [book_scraper2.py] have no white space at either end. *)
Theorem price_text_is_clean (raw : str) (book : node) :
  (163%N ∉ BookScraper2.cleaned_price_of raw) /\
  (194%N ∉ BookScraper2.cleaned_price_of raw) /\
  strip (BookScraper2.cleaned_price_of raw) = BookScraper2.cleaned_price_of raw /\
  BookScraper2.cleaned_price_of (BookScraper2.cleaned_price_of raw) =
    BookScraper2.cleaned_price_of raw /\
  (163%N ∉ replace pound [] (strip raw)) /\
  match BookScraper2.title_of book with
  | Return title => strip title = title
  | Raise _ => True
  end.
Proof.
  assert (H163 : 163%N ∉ BookScraper2.cleaned_price_of raw).
  { intros H%elem_of_strip. by apply replace_removes in H. }
  assert (H194 : 194%N ∉ BookScraper2.cleaned_price_of raw).
  { intros H%elem_of_strip%elem_of_replace. by apply replace_removes in H. }
  split_and!; [done|done|apply strip_idempotent| |apply replace_removes|].
  - unfold BookScraper2.cleaned_price_of at 1. unfold a_circumflex, pound.
    rewrite (replace_absent 194), (replace_absent 163).
    + apply strip_idempotent.
    + apply Forall_forall. intros a Ha ->. by apply H163.
    + apply Forall_forall. intros a Ha ->. by apply H194.
  - unfold BookScraper2.title_of.
    destruct (on_found _ _) as [[a|]|]; [|done..]. apply strip_idempotent.
Qed.

End RowInvariants.

(* ===================================================================== *)
(** * The product scraper and the page content *)
(* ===================================================================== *)

Section Products.

Import DurexScraper.

Lemma resolve_link_resolved link base_url :
  resolve_link link base_url = NA \/ resolved base_url (resolve_link link base_url).
Proof.
  unfold resolve_link, resolved, str_eqb.
  destruct (decide (link = NA)) as [->|Hna]; [by left|].
  rewrite bool_decide_eq_false_2 by done. cbn [negb andb].
  destruct (startswith (lit "http") link) eqn:E; cbn [negb]; right; [by left|right].
  rewrite List.app_assoc. apply startswith_app.
Qed.

Lemma row_description_length (p : product) :
  (List.length (description (row_of p)) <= 200)%nat.
Proof.
  unfold row_of. cbn [description].
  destruct (negb _); [|change (List.length NA) with 3%nat; lia].
  unfold slice_to. rewrite length_firstn. lia.
Qed.

(** X5. Every row the product scraper returns has a description of at
    most 200 characters and a link that is the sentinel, begins with
    [http], or begins with the base URL, its trailing slashes replaced
    by one; there are no more rows than candidate elements, and none
    when the fetch fails. *)
Theorem product_rows_invariants (w : web) (base_url : str) :
  match (scrape_products w base_url).1 with
  | Return rows =>
      Forall (fun r => (List.length (description r) <= 200)%nat /\
                       (link r = NA \/ resolved base_url (link r))) rows /\
      match w base_url with
      | inl _ => rows = []
      | inr soup => (List.length rows <= List.length (product_elements_of soup))%nat
      end
  | Raise _ => False
  end.
Proof.
  destruct (scrape_products_run w base_url) as (t & _ & ->). cbn [fst].
  destruct (w base_url) as [e|soup]; [by split|]. split.
  - apply Forall_forall. intros r Hr.
    apply list_elem_of_In, List.in_map_iff in Hr as (p & <- & Hp).
    apply List.filter_In in Hp as [Hp _].
    apply List.in_map_iff in Hp as (el & <- & _).
    split; [apply row_description_length|].
    unfold row_of, extract_product. cbn [link]. apply resolve_link_resolved.
  - rewrite length_map.
    etransitivity; [apply List.filter_length_le|]. by rewrite length_map.
Qed.

Lemma sleeps_app t1 t2 : sleeps (t1 ++ t2) = (sleeps t1 + sleeps t2)%nat.
Proof. unfold sleeps. by rewrite List.filter_app, length_app. Qed.

Lemma product_lines_app t1 t2 :
  product_lines (t1 ++ t2) = (product_lines t1 + product_lines t2)%nat.
Proof. unfold product_lines. by rewrite List.filter_app, length_app. Qed.

Lemma scrape_element_trace base_url i el acc :
  exists s t,
    scrape_element base_url (i, el) acc = (Return Continue, s, t) /\
    sleeps t = (if (i mod 10 =? 0)%Z then 1 else 0)%nat /\
    (product_lines t <= if (i <=? 5)%Z then 1 else 0)%nat.
Proof.
  unfold scrape_element.
  destruct (emitted _), (i <=? 5), (i mod 10 =? 0);
    (eexists _, _; split; [reflexivity|split; [reflexivity|vm_compute; lia]]).
Qed.

(** The pauses and the product lines of the loop over the elements,
    numbered from [i]. *)
Lemma scrape_elements_trace base_url els i acc :
  1 <= i ->
  exists s t,
    for_each (enumerate i els) (scrape_element base_url) acc = (Return tt, s, t) /\
    Z.of_nat (sleeps t) = (i + Z.of_nat (List.length els) - 1) / 10 - (i - 1) / 10 /\
    Z.of_nat (product_lines t) <= Z.max 0 (6 - i).
Proof.
  revert i acc. induction els as [|el els IH]; intros i acc Hi.
  - exists acc, []. split_and!; [done| |change (product_lines []) with 0%nat; lia].
    change (sleeps []) with 0%nat. cbn [List.length].
    replace (i + Z.of_nat 0 - 1) with (i - 1) by lia. lia.
  - cbn [enumerate]. rewrite for_each_cons.
    destruct (scrape_element_trace base_url i el acc) as (s1 & t1 & -> & Hs1 & Hp1).
    destruct (IH (i + 1) s1) as (s & t & -> & Hs & Hp); [lia|].
    exists s, (t1 ++ t). split; [done|].
    rewrite sleeps_app, product_lines_app, Nat2Z.inj_add, Nat2Z.inj_add, Hs, Hs1.
    cbn [List.length]. split.
    + replace (i + 1 + Z.of_nat (List.length els) - 1)
        with (i + Z.of_nat (S (List.length els)) - 1) by lia.
      replace (i + 1 - 1) with i by lia.
      destruct (Z.eqb_spec (i mod 10) 0) as [E|E];
        Z.div_mod_to_equations; lia.
    + destruct (Z.leb_spec i 5); lia.
Qed.

Lemma scrape_products_trace w base_url soup s t :
  w base_url = inr soup ->
  for_each (enumerate 1 (product_elements_of soup)) (scrape_element base_url) [] =
    (Return tt, s, t) ->
  scrape_products w base_url =
    (Return s,
     [Print Fetching_main_page; Get base_url;
      Print (Found_potential_products (List.length (product_elements_of soup)))] ++ t).
Proof.
  intros Hw Hloop.
  unfold scrape_products, scrape_products_from, get_page_content, try_except,
    requests_get.
  unfold bind at 1 2 3 4 5. unfold print at 1, emit at 1 2.
  rewrite Hw. cbn. unfold bind at 1. rewrite Hloop.
  unfold read. cbn. by rewrite List.app_nil_r.
Qed.

(** X6. The product scraper pauses once after every tenth candidate
    element, so [n / 10] times for [n] elements, and prints the titles
    of at most five products; it does neither when the fetch fails. *)
Theorem product_scraper_pacing (w : web) (base_url : str) :
  match w base_url with
  | inl _ =>
      sleeps (scrape_products w base_url).2 = 0%nat /\
      product_lines (scrape_products w base_url).2 = 0%nat
  | inr soup =>
      sleeps (scrape_products w base_url).2 =
        (List.length (product_elements_of soup) / 10)%nat /\
      (product_lines (scrape_products w base_url).2 <= 5)%nat
  end.
Proof.
  destruct (w base_url) as [e|soup] eqn:Hw.
  - unfold scrape_products, scrape_products_from, get_page_content, try_except,
      requests_get, bind, print, emit, read.
    by rewrite Hw.
  - destruct (scrape_elements_trace base_url (product_elements_of soup) 1 [])
      as (s & t & Hloop & Hs & Hp); [lia|].
    rewrite (scrape_products_trace _ _ _ _ _ Hw Hloop). cbn [snd].
    rewrite sleeps_app, product_lines_app.
    change (sleeps [_; _; _]) with 0%nat. change (product_lines [_; _; _]) with 0%nat.
    split; [|lia].
    apply Nat2Z.inj. rewrite Nat2Z.inj_div. cbn [Nat.add]. rewrite Hs.
    replace (1 + Z.of_nat (List.length (product_elements_of soup)) - 1)
      with (Z.of_nat (List.length (product_elements_of soup))) by lia.
    change ((1 - 1) / 10) with 0. change (Z.of_nat 10) with 10. lia.
Qed.

Lemma omap_length_le {A B} (f : A -> option B) (l : list A) :
  (List.length (omap f l) <= List.length l)%nat.
Proof. induction l as [|a l IH]; csimpl; [lia|]. destruct (f a); csimpl; simpl; lia. Qed.

(** X7. The page content never holds more than 20 headings, 30
    excerpts and 50 links; every heading has more than 3 characters,
    every excerpt between 21 and 150, every link a text and a URL that
    begins with [http] or with the URL of the page, its trailing slashes
    replaced by one. [scrape_page_content] never raises: it returns the
    empty dict when the fetch fails. *)
Theorem page_content_bounds (w : web) (page_url : str) :
  match (scrape_page_content w page_url).1, w page_url with
  | Return None, inl _ => True
  | Return (Some c), inr soup =>
      c = content_of page_url soup /\
      (List.length (page_headings c) <= 20)%nat /\
      Forall (fun h => (3 < List.length h)%nat) (page_headings c) /\
      (List.length (main_text c) <= 30)%nat /\
      Forall (fun t => (20 < List.length t <= 150)%nat) (main_text c) /\
      (List.length (links c) <= 50)%nat /\
      Forall (fun l => text l <> [] /\ resolved page_url (url l)) (links c)
  | _, _ => False
  end.
Proof.
  unfold scrape_page_content, get_page_content, try_except, requests_get,
    bind, print, emit, ret, raise.
  destruct (w page_url) as [e|soup]; cbn [fst option_map]; [done|].
  unfold content_of; cbn [page_headings main_text links].
  split_and!; [done|..].
  - etransitivity; [apply List.filter_length_le|].
    rewrite length_map. unfold find_all_limit. rewrite length_firstn. lia.
  - apply Forall_forall. intros h [_ Hh%Nat.ltb_lt]%list_elem_of_In%List.filter_In. done.
  - rewrite length_map.
    etransitivity; [apply List.filter_length_le|].
    rewrite length_map. unfold find_all_limit. rewrite length_firstn. lia.
  - apply Forall_forall. intros t Ht.
    apply list_elem_of_In, List.in_map_iff in Ht as (t0 & <- & Ht).
    apply List.filter_In in Ht as [_ Ht%Nat.ltb_lt].
    unfold slice_to. rewrite length_firstn. lia.
  - etransitivity; [apply omap_length_le|].
    unfold find_all_limit. rewrite length_firstn. lia.
  - apply Forall_forall. intros l Hl.
    apply list_elem_of_omap in Hl as (a & _ & Hl).
    rewrite nav_link_of_spec in Hl. cbv zeta in Hl.
    generalize dependent (get (lit "href") [] a). intros href.
    generalize dependent (get_text true a). intros txt.
    destruct (_ || _ || _) eqn:Eg; [done|]. intros Hl%(inj Some). subst l.
    apply orb_false_iff in Eg as [[Et%bool_decide_eq_false _]%orb_false_iff _].
    cbn [text url]. split; [done|]. unfold resolved.
    destruct (startswith (lit "http") href) eqn:E; [by left|right].
    rewrite List.app_assoc. apply startswith_app.
Qed.

End Products.

(* ===================================================================== *)
(** * The scripts *)
(* ===================================================================== *)

Section Scripts.

Lemma writes_app a b : writes (a ++ b) = writes a ++ writes b.
Proof. apply List.filter_app. Qed.

Lemma writes_Ran t : writes (List.map Ran t) = [].
Proof. by induction t. Qed.

Lemma ran_app a b : ran (a ++ b) = ran a ++ ran b.
Proof. apply List.flat_map_app. Qed.

Lemma ran_Ran t : ran (List.map Ran t) = t.
Proof. induction t as [|e t IH]; [done|]. unfold ran in *. cbn. by rewrite IH. Qed.

Lemma session_raises w url max_pages e :
  (BookScraper.scrape_books w url max_pages).1 = Raise e -> extraction_error e.
Proof.
  rewrite scrape_books_run.
  destruct (for_each _ _ []) as [[[[]|e'] s] t] eqn:Eloop; [done|].
  intros [= <-]. by eapply loop_raises.
Qed.

Lemma session_gets_prefix w url max_pages :
  gets (BookScraper.scrape_books w url max_pages).2
    `prefix_of` List.map (BookScraper.page_url url) (range 1 (max_pages + 1)).
Proof.
  rewrite scrape_books_run.
  pose proof (loop_gets_prefix w url (range 1 (max_pages + 1)) []) as H.
  by destruct (for_each _ _ []) as [[r s] t].
Qed.

Lemma extract_book2_raises book e :
  BookScraper2.extract_book book = Raise e -> extraction_error e.
Proof.
  unfold BookScraper2.extract_book, BookScraper2.title_of.
  destruct (on_found _ _) as [a|e1] eqn:E1.
  - destruct (on_found a _) as [title|e2] eqn:E2.
    + destruct (float _) eqn:Ef; [done|]. intros [= <-]. right.
      by apply float_raises in Ef.
    + intros [= <-]. left. by apply on_found_raises in E2.
  - intros [= <-]. left. by apply on_found_raises in E1.
Qed.

(** X8. [main] of [book_scraper.py] runs one session of at most 50
    requests. When the session returns, the script returns and writes
    [books.csv], with the header [title, price, rating] and the rows of
    pages [1 .. k], the pages that were served with containers before
    the first one that was not or the fiftieth, exactly when there is a
    row; it writes no other file. When extraction raises, the script
    raises the same exception and writes no file, whatever rows the
    earlier pages gave. *)
Theorem book_script_outcome (w : web) :
  ran (BookScraperScript.main w).2 =
    (BookScraper.scrape_books w BookScraperScript.base_url 50).2 /\
  (List.length (gets (ran (BookScraperScript.main w).2)) <= 50)%nat /\
  match (BookScraperScript.main w).1 with
  | Return _ =>
      exists k,
        0 <= k <= 50 /\
        Forall (fun p => is_Some (page_rows w BookScraperScript.base_url p))
               (range 1 (k + 1)) /\
        writes (BookScraperScript.main w).2 =
          match rows_of_pages w BookScraperScript.base_url (range 1 (k + 1)) with
          | [] => []
          | rows =>
              [Write_books (lit "books.csv") [lit "title"; lit "price"; lit "rating"] rows]
          end /\
        (k < 50 -> page_stops w BookScraperScript.base_url (k + 1))
  | Raise e =>
      (BookScraper.scrape_books w BookScraperScript.base_url 50).1 = Raise e /\
      extraction_error e /\
      writes (BookScraperScript.main w).2 = []
  end.
Proof.
  pose proof (session_gets_prefix w BookScraperScript.base_url 50) as Hg.
  apply prefix_length in Hg. rewrite length_map, range_length in Hg.
  pose proof (session_returns w BookScraperScript.base_url 50) as Hret.
  pose proof (session_raises w BookScraperScript.base_url 50) as Hraise.
  unfold BookScraperScript.main.
  destruct (BookScraper.scrape_books w BookScraperScript.base_url 50) as [[rows|e] t].
  - cbn [fst snd] in *.
    assert (ran (([Say Starting_book_scraper; Say (Target BookScraperScript.base_url)] ++
                  List.map Ran t) ++
                 match rows with
                 | [] => [Say No_books_were_scraped]
                 | _ :: _ =>
                     BookScraperScript.save_to_csv rows (lit "books.csv") ++
                     [Say (Total_books_scraped (List.length rows))]
                 end) = t) as ->.
    { rewrite !ran_app, ran_Ran. destruct rows; cbn; by rewrite List.app_nil_r. }
    change (Z.to_nat (50 + 1 - 1)) with 50%nat in Hg.
    split_and!; [done|done|].
    destruct (Hret rows eq_refl) as (k & Hk & Hgood & -> & Hstop).
    exists k. split_and!; [lia|lia|done| |done].
    rewrite !writes_app, writes_Ran.
    by destruct (rows_of_pages _ _ _).
  - cbn [fst snd] in *. rewrite ran_app, ran_Ran.
    change (ran [_; _]) with (@nil event). cbn [app].
    change (Z.to_nat (50 + 1 - 1)) with 50%nat in Hg.
    split_and!; [done|done|done|by apply Hraise|].
    exact (writes_Ran t).
Qed.

(** X9. On a first page without book containers the two book scripts
    part: [book_scraper2.py] writes its file with no row and no column,
    [book_scraper.py] writes none. When the fetch fails,
    [book_scraper2.py] raises after its one request and writes nothing,
    [book_scraper.py] returns. On a page with containers
    [book_scraper2.py] writes the rows under [title, price, rating], or
    raises the exception of extraction and writes nothing. *)
Theorem book_scripts_on_the_first_page (w : web) (output_path : str) :
  ran (BookScraper2Script.main w output_path).2 = [Get BookScraper2Script.url] /\
  match w BookScraper2Script.url with
  | inl e =>
      (BookScraper2Script.main w output_path).1 = Raise (RequestException e) /\
      writes (BookScraper2Script.main w output_path).2 = [] /\
      (BookScraperScript.main w).1 = Return tt /\
      writes (BookScraperScript.main w).2 = []
  | inr soup =>
      match BookScraper.book_containers_of soup with
      | [] =>
          (BookScraper2Script.main w output_path).1 = Return tt /\
          writes (BookScraper2Script.main w output_path).2 =
            [Write_books output_path [] []] /\
          (BookScraperScript.main w).1 = Return tt /\
          writes (BookScraperScript.main w).2 = []
      | c :: cs =>
          match (BookScraper2Script.main w output_path).1 with
          | Return _ =>
              exists rows,
                traverse BookScraper2.extract_book (c :: cs) = Return rows /\
                List.length rows = S (List.length cs) /\
                writes (BookScraper2Script.main w output_path).2 =
                  [Write_books output_path [lit "title"; lit "price"; lit "rating"] rows]
          | Raise e =>
              extraction_error e /\ writes (BookScraper2Script.main w output_path).2 = []
          end
      end
  end.
Proof.
  assert (Hfirst :
    match w BookScraperScript.base_url with
    | inl _ => True
    | inr soup => BookScraper.book_containers_of soup = []
    end ->
    (BookScraperScript.main w).1 = Return tt /\ writes (BookScraperScript.main w).2 = []).
  { intros Hw. unfold BookScraperScript.main. rewrite scrape_books_run.
    rewrite (range_cons 1 (50 + 1)) by lia.
    rewrite for_each_cons, scrape_page_run. cbv zeta. rewrite page_url_first.
    destruct (w BookScraperScript.base_url) as [e|soup].
    - by split.
    - rewrite Hw. by split. }
  unfold BookScraper2Script.main. rewrite scrape_books2_run.
  change BookScraperScript.base_url with BookScraper2Script.url in Hfirst.
  destruct (w BookScraper2Script.url) as [e|soup].
  { split; [done|]. split_and!; [done|done|by apply Hfirst..]. }
  fold (BookScraper.book_containers_of soup).
  destruct (BookScraper.book_containers_of soup) as [|c cs].
  { split; [done|]. split_and!; [done|done|by apply Hfirst..]. }
  destruct (traverse BookScraper2.extract_book (c :: cs)) as [rows|e] eqn:Et.
  - split; [done|]. cbn [fst snd]. exists rows.
    pose proof (traverse_length _ _ _ Et) as Hlen. split_and!; [done|done|].
    destruct rows; [done|]. done.
  - split; [done|]. cbn [fst snd]. split; [|done].
    revert Et. apply traverse_raises. apply extract_book2_raises.
Qed.

Lemma scrape_page_content_run w page_url :
  exists t,
    gets t = [page_url] /\
    DurexScraper.scrape_page_content w page_url =
      (Return
         match w page_url with
         | inl _ => None
         | inr soup => Some (DurexScraper.content_of page_url soup)
         end, t).
Proof.
  unfold DurexScraper.scrape_page_content, DurexScraper.get_page_content, try_except,
    requests_get, bind, print, emit, ret, raise.
  destruct (w page_url) as [e|soup]; (eexists; split; cycle 1; [reflexivity|done]).
Qed.

(** X10. [main] of [durex_scraper.py] never raises and requests the base
    URL twice, nothing else. It writes [durex_content.txt], holding the
    summary of the page content, exactly when the first request is
    answered, and after it [durex_products.csv], with the header
    [title, description, category, link] and the product rows, exactly
    when the product scraper returns a row: the two files depend on
    different requests. *)
Theorem durex_script_outcome (w1 w2 : web) :
  (DurexScraperScript.main w1 w2).1 = Return tt /\
  gets (ran (DurexScraperScript.main w1 w2).2) =
    [DurexScraperScript.base_url; DurexScraperScript.base_url] /\
  writes (DurexScraperScript.main w1 w2).2 =
    match w1 DurexScraperScript.base_url with
    | inr soup =>
        [Write_text (lit "durex_content.txt")
           (DurexScraperScript.summary_text
              (DurexScraper.content_of DurexScraperScript.base_url soup))]
    | inl _ => []
    end ++
    match (DurexScraper.scrape_products w2 DurexScraperScript.base_url).1 with
    | Return (p :: ps) =>
        [Write_products (lit "durex_products.csv")
           [lit "title"; lit "description"; lit "category"; lit "link"] (p :: ps)]
    | _ => []
    end.
Proof.
  unfold DurexScraperScript.main. cbv zeta.
  destruct (scrape_page_content_run w1 DurexScraperScript.base_url) as (t1 & Hg1 & ->).
  destruct (scrape_products_run w2 DurexScraperScript.base_url) as (t2 & Hg2 & ->).
  cbn [fst snd]. split; [done|].
  set (products := match w2 DurexScraperScript.base_url with inl _ => _ | inr _ => _ end).
  split.
  - rewrite !ran_app, !ran_Ran, !gets_app, Hg1, Hg2.
    destruct (w1 DurexScraperScript.base_url), products; done.
  - rewrite !writes_app, !writes_Ran.
    destruct (w1 DurexScraperScript.base_url), products; done.
Qed.

Lemma contains_startswith sub s : startswith sub s = true -> contains sub s = true.
Proof. intros H. destruct s; simpl; by rewrite H. Qed.

Lemma contains_app_r sub a s : contains sub s = true -> contains sub (a ++ s) = true.
Proof.
  intros H. induction a as [|x a IH]; [done|].
  cbn [app contains]. rewrite IH. apply orb_true_r.
Qed.

Lemma contains_app_l sub s b : contains sub s = true -> contains sub (s ++ b) = true.
Proof.
  induction s as [|x s IH].
  - destruct sub; [by destruct b|done].
  - cbn [app contains]. intros [H|H]%orb_true_iff.
    + pose proof (startswith_app_l sub (x :: s) b H) as H'. cbn [app] in H'.
      by rewrite H'.
    + by rewrite IH, orb_true_r.
Qed.

Lemma contains_concat_map {X} (f : X -> str) (l : list X) x :
  x ∈ l -> contains (f x) (List.concat (List.map f l)) = true.
Proof.
  induction 1 as [x l|x y l _ IH]; cbn [List.map List.concat].
  - apply contains_app_l, contains_startswith.
    rewrite <- (List.app_nil_r (f x)) at 2. apply startswith_app.
  - by apply contains_app_r.
Qed.

Lemma numbered_contains heading line entries ie :
  ie ∈ enumerate 1 entries ->
  contains (lit "  " ++ str_of_int ie.1 ++ lit ". " ++ line ie.2 ++ newline)
           (DurexScraperScript.numbered heading line entries) = true.
Proof.
  intros H. unfold DurexScraperScript.numbered.
  destruct entries as [|e es]; [by apply elem_of_nil in H|].
  apply contains_app_r, contains_app_r, contains_app_l.
  by apply (contains_concat_map
              (fun ie => lit "  " ++ str_of_int ie.1 ++ lit ". " ++ line ie.2 ++ newline)).
Qed.

(** X11. The content summary begins with its banner and holds a
    numbered line for every heading, for each of the first ten excerpts,
    followed by [...], and for each of the first twenty links; the
    numbers start at 1. Excerpts after the tenth and links after the
    twentieth do not reach the file: cutting them off the content gives
    the same text. *)
Theorem summary_text_entries (c : DurexScraper.content) :
  startswith (lit "=== DUREX.CO.UK CONTENT ANALYSIS ===")
             (DurexScraperScript.summary_text c) = true /\
  Forall (fun ih =>
            contains (lit "  " ++ str_of_int ih.1 ++ lit ". " ++ ih.2 ++ newline)
                     (DurexScraperScript.summary_text c) = true)
         (enumerate 1 (DurexScraper.page_headings c)) /\
  Forall (fun it =>
            contains (lit "  " ++ str_of_int it.1 ++ lit ". " ++ it.2 ++ lit "..." ++ newline)
                     (DurexScraperScript.summary_text c) = true)
         (enumerate 1 (firstn 10 (DurexScraper.main_text c))) /\
  Forall (fun il =>
            contains (lit "  " ++ str_of_int il.1 ++ lit ". " ++ DurexScraper.text il.2 ++
                      lit " -> " ++ DurexScraper.url il.2 ++ newline)
                     (DurexScraperScript.summary_text c) = true)
         (enumerate 1 (firstn 20 (DurexScraper.links c))) /\
  DurexScraperScript.summary_text
    {| DurexScraper.page_title := DurexScraper.page_title c;
       DurexScraper.page_headings := DurexScraper.page_headings c;
       DurexScraper.main_text := firstn 10 (DurexScraper.main_text c);
       DurexScraper.links := firstn 20 (DurexScraper.links c);
       DurexScraper.meta_description := DurexScraper.meta_description c |} =
    DurexScraperScript.summary_text c.
Proof.
  unfold DurexScraperScript.summary_text. split_and!.
  - apply startswith_app.
  - apply Forall_forall. intros ih Hih.
    do 5 apply contains_app_r. apply contains_app_l.
    by apply (numbered_contains _ (fun heading => heading)).
  - apply Forall_forall. intros it Hit.
    do 6 apply contains_app_r. apply contains_app_l.
    rewrite (List.app_assoc it.2).
    by apply (numbered_contains _ (fun text => text ++ lit "...")).
  - apply Forall_forall. intros il Hil.
    do 7 apply contains_app_r.
    destruct (DurexScraper.links c) as [|l ls]; [by apply elem_of_nil in Hil|].
    apply contains_app_r, contains_app_r, contains_app_l.
    by apply (contains_concat_map
                (fun il => lit "  " ++ str_of_int il.1 ++ lit ". " ++ DurexScraper.text il.2 ++
                           lit " -> " ++ DurexScraper.url il.2 ++ newline)).
  - cbn [DurexScraper.page_title DurexScraper.page_headings DurexScraper.main_text
         DurexScraper.links DurexScraper.meta_description].
    rewrite firstn_firstn. change (Nat.min 10 10) with 10%nat.
    destruct (DurexScraper.links c) as [|l ls]; [done|].
    cbn [firstn]. by rewrite firstn_firstn.
Qed.

Lemma lit_inj s1 s2 : lit s1 = lit s2 -> s1 = s2.
Proof.
  unfold lit. intros H.
  rewrite <- (string_of_list_ascii_of_string s1), <- (string_of_list_ascii_of_string s2).
  f_equal. revert H. generalize (list_ascii_of_string s1) (list_ascii_of_string s2).
  induction l as [|a l IH]; intros [|b l']; simpl; try done.
  intros [= Hab Hl]. f_equal; [|by apply IH].
  by rewrite <- (ascii_N_embedding a), <- (ascii_N_embedding b), Hab.
Qed.

Lemma str_of_int_inj n m : str_of_int n = str_of_int m -> n = m.
Proof.
  unfold str_of_int. intros H%lit_inj.
  assert (Hnil : forall z, Z.to_int z <> Decimal.Pos Decimal.Nil /\
                           Z.to_int z <> Decimal.Neg Decimal.Nil).
  { intros [|p|p]; split; simpl; try done; intros [= Hp];
      by apply DecimalPos.Unsigned.to_uint_nonnil in Hp. }
  apply DecimalZ.to_int_inj.
  assert (Some (Z.to_int n) = Some (Z.to_int m)) as [= ->]; [|done].
  rewrite <- (NilZero.isi (Z.to_int n)), <- (NilZero.isi (Z.to_int m)), H;
    [done|apply Hnil..].
Qed.

Lemma page_url_inj url p q :
  1 <= p -> 1 <= q -> BookScraper.page_url url p = BookScraper.page_url url q -> p = q.
Proof.
  intros Hp Hq. unfold BookScraper.page_url.
  destruct (1 <? p) eqn:Ep, (1 <? q) eqn:Eq.
  - intros H. do 2 apply List.app_inv_head in H. apply List.app_inv_tail in H.
    by apply str_of_int_inj.
  - intros H%(f_equal (@List.length N)). rewrite length_app in H. simpl in H. lia.
  - intros H%(f_equal (@List.length N)). rewrite length_app in H. simpl in H. lia.
  - lia.
Qed.

Lemma page_urls_NoDup url a b :
  1 <= a -> NoDup (List.map (BookScraper.page_url url) (range a b)).
Proof.
  intros Ha. apply NoDup_fmap_2_strong; [|apply NoDup_seqZ].
  intros p q Hp%elem_of_seqZ Hq%elem_of_seqZ. apply page_url_inj; lia.
Qed.

(** X12. Distinct pages have distinct URLs, so a session of the book
    scraper never requests a URL twice. *)
Theorem no_url_requested_twice (w : web) (url : str) (max_pages : Z) :
  NoDup (gets (BookScraper.scrape_books w url max_pages).2).
Proof.
  destruct (session_gets_prefix w url max_pages) as [rest Hrest].
  pose proof (page_urls_NoDup url 1 (max_pages + 1) ltac:(lia)) as H.
  rewrite Hrest in H. by apply NoDup_app in H as [H _].
Qed.

End Scripts.
